(** * phone_agent/adb/screenshot.py: a shallow embedding and its properties

    The module captures the screen of an Android device through the [adb]
    command-line tool and hands a [Screenshot] back: the real picture, or a
    black 1080x2400 placeholder when a step fails.

    Layout of this file:
    - [PyStr]: the [str] methods the module calls ([strip], [splitlines],
      [endswith], [split], [in]), on strings of code points below 256;
    - [Base64]: [base64.b64encode] and a decoder for its output;
    - the external world ([subprocess.run], [tempfile], [uuid], [os.remove],
      PIL, [print]) as a record of answers, and a state-and-exception monad
      that keeps the local variable [real_id] and the trace of external
      calls across a raised exception, as a Python frame does;
    - the four helpers and [get_screenshot], statement by statement;
    - the properties. *)

From Stdlib Require Import ZArith NArith List String Ascii Bool Lia.
From Stdlib Require Import Strings.Byte.
Import ListNotations.

Local Open Scope string_scope.
Local Open Scope Z_scope.

(** ** Python [str] methods used by the module *)

Module PyStr.

Definition TAB : ascii := ascii_of_N 9.
Definition LF : ascii := ascii_of_N 10.
Definition CR : ascii := ascii_of_N 13.

(** [str.isspace] on one character: U+0009..U+000D, U+001C..U+0020, U+0085
    and U+00A0 are the white-space code points below 256. *)
Definition isspace (c : ascii) : bool :=
  let n := N_of_ascii c in
  ((9 <=? n) && (n <=? 13) || (28 <=? n) && (n <=? 32) || (n =? 133) || (n =? 160))%N.

(** The line boundaries of [str.splitlines] below 256: LF, VT, FF, CR,
    FS, GS, RS and NEL (CR LF counts once, see [splitlines_from]). *)
Definition is_linebreak (c : ascii) : bool :=
  let n := N_of_ascii c in
  ((10 <=? n) && (n <=? 13) || (28 <=? n) && (n <=? 30) || (n =? 133))%N.

Fixpoint lstrip (s : string) : string :=
  match s with
  | EmptyString => EmptyString
  | String c r => if isspace c then lstrip r else s
  end.

Fixpoint rstrip (s : string) : string :=
  match s with
  | EmptyString => EmptyString
  | String c r =>
      match rstrip r with
      | EmptyString => if isspace c then EmptyString else String c EmptyString
      | r' => String c r'
      end
  end.

(** [s.strip()] *)
Definition strip (s : string) : string := rstrip (lstrip s).

(** [splitlines_from cur s]: the lines of [cur + s], where [cur] is the part
    of the current line already read. *)
Fixpoint splitlines_from (cur s : string) : list string :=
  match s with
  | EmptyString => if (cur =? "")%string then [] else [cur]
  | String c r =>
      if is_linebreak c then
        cur :: match r with
               | String c2 r2 =>
                   if ((c =? CR) && (c2 =? LF))%char
                   then splitlines_from "" r2
                   else splitlines_from "" r
               | EmptyString => splitlines_from "" r
               end
      else splitlines_from (cur ++ String c "") r
  end.

(** [s.splitlines()] *)
Definition splitlines (s : string) : list string := splitlines_from "" s.

(** [s.endswith(suffix)] *)
Definition endswith (s suffix : string) : bool :=
  let n := String.length s in
  let m := String.length suffix in
  (m <=? n)%nat && (substring (n - m) m s =? suffix)%string.

(** [split_from sep cur s]: the fields of [cur + s] for a one-character
    separator. *)
Fixpoint split_from (sep : ascii) (cur s : string) : list string :=
  match s with
  | EmptyString => [cur]
  | String c r =>
      if (c =? sep)%char then cur :: split_from sep "" r
      else split_from sep (cur ++ String c "") r
  end.

(** [s.split(sep)] for a separator of one character *)
Definition split (s : string) (sep : ascii) : list string := split_from sep "" s.

(** [needle in hay] *)
Fixpoint contains (needle hay : string) : bool :=
  prefix needle hay ||
  match hay with
  | EmptyString => false
  | String _ r => contains needle r
  end.

(** Truth value of an [Optional[str]]: [None] and [""] are false. *)
Definition truthy (o : option string) : bool :=
  match o with
  | Some s => negb (s =? "")%string
  | None => false
  end.

(** [a or b] on such values, where [b] is a string. *)
Definition or_else (o : option string) (b : string) : string :=
  match o with
  | Some s => if (s =? "")%string then b else s
  | None => b
  end.

(** [posixpath.join(a, b)] *)
Definition os_path_join (a b : string) : string :=
  if prefix "/" b then b
  else if (a =? "")%string || endswith a "/" then a ++ b
  else a ++ "/" ++ b.

End PyStr.

(** ** [base64.b64encode] (RFC 4648, standard alphabet, padded) *)

Module Base64.

Definition alphabet : list ascii :=
  list_ascii_of_string
    "ABCDEFGHIJKLMNOPQRSTUVWXYZabcdefghijklmnopqrstuvwxyz0123456789+/".

Definition pad : ascii := "="%char.

Definition char_of (n : N) : ascii := nth (N.to_nat n) alphabet pad.

Fixpoint index_from (i : N) (l : list ascii) (c : ascii) : option N :=
  match l with
  | [] => None
  | x :: r => if (x =? c)%char then Some i else index_from (N.succ i) r c
  end.

Definition index_of (c : ascii) : option N := index_from 0%N alphabet c.

Definition byte_of_N (n : N) : byte :=
  match Byte.of_N n with
  | Some b => b
  | None => x00
  end.

Local Open Scope N_scope.

(** Three bytes become four characters; a last group of one or two bytes
    is padded with [=]. *)
Fixpoint b64encode (bs : list byte) : string :=
  match bs with
  | [] => EmptyString
  | [a] =>
      let a := Byte.to_N a in
      String (char_of (a / 4))
        (String (char_of (a mod 4 * 16))
           (String pad (String pad EmptyString)))
  | [a; b] =>
      let a := Byte.to_N a in
      let b := Byte.to_N b in
      String (char_of (a / 4))
        (String (char_of (a mod 4 * 16 + b / 16))
           (String (char_of (b mod 16 * 4))
              (String pad EmptyString)))
  | a :: b :: c :: rest =>
      let a := Byte.to_N a in
      let b := Byte.to_N b in
      let c := Byte.to_N c in
      String (char_of (a / 4))
        (String (char_of (a mod 4 * 16 + b / 16))
           (String (char_of (b mod 16 * 4 + c / 64))
              (String (char_of (c mod 64)) (b64encode rest))))
  end.

(** A strict decoder: groups of four characters of the alphabet, padding
    only in the last group.  [base64.b64decode] agrees with it on every
    string it accepts. *)
Fixpoint b64decode (s : string) : option (list byte) :=
  match s with
  | EmptyString => Some []
  | String c0 (String c1 (String c2 (String c3 rest))) =>
      match index_of c0, index_of c1 with
      | Some i0, Some i1 =>
          let b0 := byte_of_N (i0 * 4 + i1 / 16) in
          if (c3 =? pad)%char then
            match rest with
            | EmptyString =>
                if (c2 =? pad)%char then Some [b0]
                else
                  match index_of c2 with
                  | Some i2 => Some [b0; byte_of_N (i1 mod 16 * 16 + i2 / 4)]
                  | None => None
                  end
            | String _ _ => None
            end
          else
            match index_of c2, index_of c3, b64decode rest with
            | Some i2, Some i3, Some tl =>
                Some (b0 :: byte_of_N (i1 mod 16 * 16 + i2 / 4)
                         :: byte_of_N (i2 mod 4 * 64 + i3) :: tl)
            | _, _, _ => None
            end
      | _, _ => None
      end
  | _ => None
  end.

End Base64.

Import PyStr Base64.

(** ** Data model *)

(** [@dataclass class Screenshot] *)
Record Screenshot := mkScreenshot {
  base64_data : string;
  width : Z;
  height : Z;
  device_id : string;
  is_sensitive : bool
}.

(** ** The external world *)

(** The exceptions of class [Exception] that can surface inside the [try]
    block.  The two [RuntimeError]s are raised by the module itself and carry
    the values their messages are formatted from; [Raised] stands for
    whatever an external call raises ([subprocess.TimeoutExpired],
    [FileNotFoundError], [PIL.UnidentifiedImageError], [OSError], ...).
    [KeyboardInterrupt] and [SystemExit] are not of class [Exception]; they
    are signals to the interpreter rather than answers of these calls, and
    stay outside the model. *)
Inductive exn :=
| RuntimeError_command (cmd : list string) (stderr : string)
| RuntimeError_device_count (n : nat)
| Raised (class_name message : string).

(** The values [json.dumps] is given by the command-line entry. *)
Inductive json :=
| JStr (s : string)
| JInt (z : Z)
| JBool (b : bool)
| JInts (l : list Z).

(** What the module hands to [print]: the line [f"[Screenshot] {exc}"] for a
    caught exception, or the record of the command-line entry as
    [json.dumps(..., ensure_ascii=False, indent=2)] renders it.  Both texts
    are functions of the value given here. *)
Inductive printed :=
| diagnostic (exc : exn)
| record (fields : list (string * json)).

(** [subprocess.CompletedProcess] with captured text output *)
Record CompletedProcess := mkCompleted {
  returncode : Z;
  stdout : string;
  stderr : string
}.

(** The object [Image.open(path)] returns, as far as the module looks at it:
    its [size] attribute, read from the file header, and what
    [img.save(buf, format="PNG")] does, namely raise (truncated data, a mode
    PNG cannot hold) or write a byte string into [buf]. *)
Record ImageFile := mkImageFile {
  size : Z * Z;
  save_PNG : exn + list byte
}.

(** What the world answers during one call of [get_screenshot].  Each
    external operation is issued at most once per call and with arguments
    that differ from one operation to the next, so a function of the
    arguments describes every possible behaviour. *)
Record Env := mkEnv {
  (** [subprocess.run(cmd, capture_output=True, text=True, timeout=t)] *)
  subprocess_run : list string -> Z -> exn + CompletedProcess;
  (** [tempfile.gettempdir()] *)
  gettempdir : exn + string;
  (** [uuid.uuid4().hex] *)
  uuid4_hex : string;
  (** [Image.open(path)] *)
  Image_open : string -> exn + ImageFile;
  (** [os.remove(path)] *)
  os_remove : string -> exn + unit;
  (** [print(text)]: the text is written to [sys.stdout], or the call
      raises: [UnicodeEncodeError] when the encoding of the stream cannot
      hold the text (the messages of the module's own [RuntimeError]s are
      Chinese), [ValueError] or [OSError] on a closed or broken stream. *)
  print : printed -> exn + unit
}.

(** The deterministic side of the image library: the PNG stream that
    [Image.new(mode, size, color=c).save(buf, format="PNG")] writes (it reads
    nothing from the world), and the decoder used to state what a payload
    contains: [png_size b = Some (w, h)] when [b] is a valid PNG of [w] by
    [h] pixels. *)
Record Codec := mkCodec {
  new_save_PNG : string -> Z * Z -> string -> list byte;
  png_size : list byte -> option (Z * Z)
}.

(** ** Frames, traces and the monad *)

(** External effects, in the order they happen. *)
Inductive event :=
| ev_run (cmd : list string) (timeout : Z)
| ev_gettempdir
| ev_open (path : string)
| ev_save
| ev_remove (path : string)
| ev_print (exc : exn)
| ev_print_record (fields : list (string * json)).

(** The frame of [get_screenshot]: whether the local [real_id] is bound
    (what ["real_id" in locals()] inspects), and the effects so far. *)
Record frame := mkFrame {
  real_id : option string;
  events : list event
}.

Definition frame0 : frame := {| real_id := None; events := [] |}.

(** A computation returns or raises, and leaves a frame in both cases. *)
Definition M (A : Type) : Type := frame -> (exn + A) * frame.

Definition ret {A} (a : A) : M A := fun f => (inr a, f).

Definition raise {A} (e : exn) : M A := fun f => (inl e, f).

Definition bind {A B} (m : M A) (k : A -> M B) : M B :=
  fun f =>
    match m f with
    | (inr a, f') => k a f'
    | (inl e, f') => (inl e, f')
    end.

(** [try: body / except Exception as exc: handler exc] *)
Definition try_except {A} (body : M A) (handler : exn -> M A) : M A :=
  fun f =>
    match body f with
    | (inr a, f') => (inr a, f')
    | (inl e, f') => handler e f'
    end.

Notation "x <- m ;; k" := (bind m (fun x => k))
  (at level 61, m at next level, right associativity).
Notation "' pat <- m ;; k" := (bind m (fun x => match x with pat => k end))
  (at level 61, pat pattern, m at next level, right associativity).
Notation "m ;;; k" := (bind m (fun _ => k))
  (at level 61, right associativity).

Definition push (e : event) (f : frame) : frame :=
  {| real_id := real_id f; events := events f ++ [e] |}.

Definition log (e : event) : M unit := fun f => (inr tt, push e f).

(** An external call: record it, then return or raise what the world says. *)
Definition external {A} (e : event) (answer : exn + A) : M A :=
  log e ;;;
  match answer with
  | inr a => ret a
  | inl x => raise x
  end.

(** Assignment to the local [real_id]. *)
Definition bind_real_id (v : string) : M unit :=
  fun f => (inr tt, {| real_id := Some v; events := events f |}).

(** [locals().get("real_id")] *)
Definition local_real_id : M (option string) := fun f => (inr (real_id f), f).

(** ** The module *)

Section Module_screenshot.

Variable E : Env.
Variable C : Codec.

(** [_run]: run the command, return its stdout, raise on a non-zero exit. *)
Definition _run (cmd : list string) (timeout : Z) : M string :=
  cp <- external (ev_run cmd timeout) (subprocess_run E cmd timeout) ;;
  if negb (returncode cp =? 0) then raise (RuntimeError_command cmd (stderr cp))
  else ret (stdout cp).

(** The list comprehension of [_get_single_device]. *)
Definition ready_devices (out : list string) : list string :=
  map (fun ln => nth 0 (split ln TAB) "")
      (filter (fun ln => endswith ln (String TAB "device")) out).

Definition _get_single_device : M string :=
  text <- _run ["adb"; "devices"] 10 ;;
  let out := splitlines (strip text) in
  let devices := ready_devices out in
  if negb (List.length devices =? 1)%nat
  then raise (RuntimeError_device_count (List.length devices))
  else ret (nth 0 devices "").

(** [a or m()] where [a] is an [Optional[str]]: [m] runs only when [a] is
    [None] or empty. *)
Definition or_call (a : option string) (m : M string) : M string :=
  match a with
  | Some s => if (s =? "")%string then m else ret s
  | None => m
  end.

Definition _build_adb_prefix (device_id : option string)
  : M (list string * string) :=
  real_id <- or_call device_id _get_single_device ;;
  ret (["adb"; "-s"; real_id], real_id).

(** [_black_fallback] builds the placeholder in memory ([Image.new], a save
    into a [BytesIO], [b64encode]): it reads and writes nothing outside the
    process, so it is a value and not an external call. *)
Definition _black_fallback (device_id : string) (is_sensitive : bool)
  : Screenshot :=
  let '(w, h) := (1080, 2400) in
  let buf := new_save_PNG C "RGB" (w, h) "black" in
  let b64 := b64encode buf in
  {| base64_data := b64; width := w; height := h;
     device_id := device_id; is_sensitive := is_sensitive |}.

Definition remote : string := "/sdcard/tmp_screenshot.png".

Definition capture_cmd (real_id : string) : list string :=
  ["adb"; "-s"; real_id] ++ ["shell"; "screencap"; "-p"; remote].

Definition pull_cmd (real_id local : string) : list string :=
  ["adb"; "-s"; real_id] ++ ["pull"; remote; local].

Definition rm_cmd (real_id : string) : list string :=
  ["adb"; "-s"; real_id] ++ ["shell"; "rm"; "-f"; remote].

(** The test on the capture output. *)
Definition refusal_marker (out : string) : bool :=
  contains "Status: -1" out || contains "Failed" out.

(** [os.path.join(tempfile.gettempdir(), f"scr_{uuid.uuid4().hex}.png")] *)
Definition local_path (tmp : string) : string :=
  os_path_join tmp ("scr_" ++ uuid4_hex E ++ ".png").

Definition get_screenshot (device_id : option string) (timeout : Z)
  : M Screenshot :=
  try_except
    (' (adb_prefix, real_id) <- _build_adb_prefix device_id ;;
     bind_real_id real_id ;;;
     tmp <- external ev_gettempdir (gettempdir E) ;;
     let local := local_path tmp in
     (* 1. capture *)
     out <- _run (adb_prefix ++ ["shell"; "screencap"; "-p"; remote]) timeout ;;
     if refusal_marker out then ret (_black_fallback real_id true)
     else
       (* 2. pull *)
       _run (adb_prefix ++ ["pull"; remote; local]) 30 ;;;
       (* 3. encode *)
       img <- external (ev_open local) (Image_open E local) ;;
       let '(w, h) := size img in
       buf <- external ev_save (save_PNG img) ;;
       let b64 := b64encode buf in
       (* 4. clean up *)
       external (ev_remove local) (os_remove E local) ;;;
       _run (adb_prefix ++ ["shell"; "rm"; "-f"; remote]) 5 ;;;
       ret {| base64_data := b64; width := w; height := h;
              device_id := real_id; is_sensitive := false |})
    (fun exc =>
       external (ev_print exc) (print E (diagnostic exc)) ;;;
       bound <- local_real_id ;;
       ret (_black_fallback
              match bound with
              | Some real_id => real_id
              | None => or_else device_id "unknown"
              end
              false)).

End Module_screenshot.

(** One call from a fresh frame: what it returns or raises, and the frame
    it leaves behind. *)
Definition call (E : Env) (C : Codec) (device_id : option string)
  (timeout : Z) : (exn + Screenshot) * frame :=
  get_screenshot E C device_id timeout frame0.

(** The payload of every placeholder. *)
Definition placeholder_data (C : Codec) : string :=
  b64encode (new_save_PNG C "RGB" (1080, 2400) "black").

(** Device resolution completed with [rid]. *)
Definition resolves_to (E : Env) (device_id : option string) (rid : string)
  : Prop :=
  exists f, _build_adb_prefix E device_id frame0 = (inr (["adb"; "-s"; rid], rid), f).

(** The command completed, with exit status zero, and printed [out]. *)
Definition succeeds (E : Env) (cmd : list string) (timeout : Z) (out : string)
  : Prop :=
  exists cp, subprocess_run E cmd timeout = inr cp
             /\ returncode cp = 0 /\ stdout cp = out.

(** Capture, transfer and decode all succeed, and the local temporary file
    is removed: the call gets as far as the remote clean-up with the picture
    [img] re-encoded as [png]. *)
Inductive decoded_run (E : Env) (device_id : option string) (timeout : Z)
  (rid : string) (img : ImageFile) (png : list byte) : Prop :=
| decoded_run_intro (tmp cap_out pull_out : string) :
    resolves_to E device_id rid ->
    gettempdir E = inr tmp ->
    succeeds E (capture_cmd rid) timeout cap_out ->
    refusal_marker cap_out = false ->
    succeeds E (pull_cmd rid (local_path E tmp)) 30 pull_out ->
    Image_open E (local_path E tmp) = inr img ->
    save_PNG img = inr png ->
    os_remove E (local_path E tmp) = inr tt ->
    decoded_run E device_id timeout rid img png.

(** The screenshot a run returns when nothing fails. *)
Definition real_screenshot (rid : string) (img : ImageFile) (png : list byte)
  : Screenshot :=
  {| base64_data := b64encode png;
     width := fst (size img); height := snd (size img);
     device_id := rid; is_sensitive := false |}.

(** ** How a call unfolds *)

(** What [_run] returns or raises, read off the world's answer. *)
Definition run_result (E : Env) (cmd : list string) (timeout : Z)
  : exn + string :=
  match subprocess_run E cmd timeout with
  | inl e => inl e
  | inr cp =>
      if returncode cp =? 0 then inr (stdout cp)
      else inl (RuntimeError_command cmd (stderr cp))
  end.

Definition devices_event : event := ev_run ["adb"; "devices"] 10.

(** The ways device resolution ends: the value or exception of
    [_build_adb_prefix], and the external calls it made. *)
Inductive resolution (E : Env) (d : option string)
  : exn + string -> list event -> Prop :=
| res_supplied (id : string) :
    d = Some id -> id <> "" ->
    resolution E d (inr id) []
| res_single (text serial : string) :
    truthy d = false ->
    succeeds E ["adb"; "devices"] 10 text ->
    ready_devices (splitlines (strip text)) = [serial] ->
    resolution E d (inr serial) [devices_event]
| res_ambiguous (text : string) :
    truthy d = false ->
    succeeds E ["adb"; "devices"] 10 text ->
    List.length (ready_devices (splitlines (strip text))) <> 1%nat ->
    resolution E d
      (inl (RuntimeError_device_count
              (List.length (ready_devices (splitlines (strip text))))))
      [devices_event]
| res_failed (e : exn) :
    truthy d = false ->
    run_result E ["adb"; "devices"] 10 = inl e ->
    resolution E d (inl e) [devices_event].

Definition extend (f : frame) (evs : list event) : frame :=
  {| real_id := real_id f; events := events f ++ evs |}.

(** Steps 2 to 4, with the local path [local]. *)
Inductive transfer (E : Env) (rid local : string)
  : exn + Screenshot -> list event -> Prop :=
| pull_failed (e : exn) :
    run_result E (pull_cmd rid local) 30 = inl e ->
    transfer E rid local (inl e) [ev_run (pull_cmd rid local) 30]
| open_failed (out : string) (e : exn) :
    run_result E (pull_cmd rid local) 30 = inr out ->
    Image_open E local = inl e ->
    transfer E rid local (inl e) [ev_run (pull_cmd rid local) 30; ev_open local]
| save_failed (out : string) (img : ImageFile) (e : exn) :
    run_result E (pull_cmd rid local) 30 = inr out ->
    Image_open E local = inr img ->
    save_PNG img = inl e ->
    transfer E rid local (inl e)
      [ev_run (pull_cmd rid local) 30; ev_open local; ev_save]
| remove_failed (out : string) (img : ImageFile) (png : list byte) (e : exn) :
    run_result E (pull_cmd rid local) 30 = inr out ->
    Image_open E local = inr img ->
    save_PNG img = inr png ->
    os_remove E local = inl e ->
    transfer E rid local (inl e)
      [ev_run (pull_cmd rid local) 30; ev_open local; ev_save; ev_remove local]
| rm_failed (out : string) (img : ImageFile) (png : list byte) (e : exn) :
    run_result E (pull_cmd rid local) 30 = inr out ->
    Image_open E local = inr img ->
    save_PNG img = inr png ->
    os_remove E local = inr tt ->
    run_result E (rm_cmd rid) 5 = inl e ->
    transfer E rid local (inl e)
      [ev_run (pull_cmd rid local) 30; ev_open local; ev_save; ev_remove local;
       ev_run (rm_cmd rid) 5]
| all_done (out out' : string) (img : ImageFile) (png : list byte) :
    run_result E (pull_cmd rid local) 30 = inr out ->
    Image_open E local = inr img ->
    save_PNG img = inr png ->
    os_remove E local = inr tt ->
    run_result E (rm_cmd rid) 5 = inr out' ->
    transfer E rid local (inr (real_screenshot rid img png))
      [ev_run (pull_cmd rid local) 30; ev_open local; ev_save; ev_remove local;
       ev_run (rm_cmd rid) 5].

(** The ways the rest of the [try] block ends once [real_id] is bound:
    what it returns or raises, and the external calls it made. *)
Inductive body (E : Env) (C : Codec) (rid : string) (t : Z)
  : exn + Screenshot -> list event -> Prop :=
| body_no_tmp (e : exn) :
    gettempdir E = inl e ->
    body E C rid t (inl e) [ev_gettempdir]
| body_capture_failed (tmp : string) (e : exn) :
    gettempdir E = inr tmp ->
    run_result E (capture_cmd rid) t = inl e ->
    body E C rid t (inl e) [ev_gettempdir; ev_run (capture_cmd rid) t]
| body_refused (tmp out : string) :
    gettempdir E = inr tmp ->
    run_result E (capture_cmd rid) t = inr out ->
    refusal_marker out = true ->
    body E C rid t (inr (_black_fallback C rid true))
      [ev_gettempdir; ev_run (capture_cmd rid) t]
| body_captured (tmp out : string) (o : exn + Screenshot) (evs : list event) :
    gettempdir E = inr tmp ->
    run_result E (capture_cmd rid) t = inr out ->
    refusal_marker out = false ->
    transfer E rid (local_path E tmp) o evs ->
    body E C rid t o (ev_gettempdir :: ev_run (capture_cmd rid) t :: evs).

(** What the handler makes of a caught exception: it prints the diagnostic
    and returns the placeholder, unless the print itself raises. *)
Definition handled (E : Env) (C : Codec) (fallback_id : string) (e : exn)
  : exn + Screenshot :=
  match print E (diagnostic e) with
  | inr _ => inr (_black_fallback C fallback_id false)
  | inl e' => inl e'
  end.

(** The outcome and final frame of a call, from the way its body ended. *)
Definition absorbed (E : Env) (C : Codec) (fallback_id : string)
  (bound : option string) (o : exn + Screenshot) (evs : list event)
  : (exn + Screenshot) * frame :=
  match o with
  | inr r => (inr r, {| real_id := bound; events := evs |})
  | inl e => (handled E C fallback_id e,
              {| real_id := bound; events := evs ++ [ev_print e] |})
  end.

(** Every call follows one of these paths. *)
Inductive path (E : Env) (C : Codec) (d : option string) (t : Z)
  : (exn + Screenshot) * frame -> Prop :=
| path_unresolved (e : exn) (evs : list event) :
    resolution E d (inl e) evs ->
    path E C d t (absorbed E C "unknown" None (inl e) evs)
| path_resolved (rid : string) (evs evs' : list event) (o : exn + Screenshot) :
    resolution E d (inr rid) evs ->
    body E C rid t o evs' ->
    path E C d t (absorbed E C rid (Some rid) o (evs ++ evs')).

(** The diagnostic of a call, if one is printed, is written without an
    exception. *)
Definition diagnostic_printed (E : Env) (C : Codec) (d : option string)
  (t : Z) : Prop :=
  forall exc,
    In (ev_print exc) (events (snd (call E C d t))) ->
    print E (diagnostic exc) = inr tt.

(** What the image library promises about PNG streams, for the images this
    module hands to it: the placeholder it builds, and any picture it opens
    and saves, decode to an image of the size they were saved with. *)
Definition png_contract (E : Env) (C : Codec) : Prop :=
  png_size C (new_save_PNG C "RGB" (1080, 2400) "black") = Some (1080, 2400)
  /\ forall path img png,
       Image_open E path = inr img -> save_PNG img = inr png ->
       png_size C png = Some (size img).

(** ** Sample worlds

    Concrete answers of [adb], the file system and the image library, on
    which the statements below are exercised. *)

Definition completed (rc : Z) (out : string) : exn + CompletedProcess :=
  inr {| returncode := rc; stdout := out; stderr := "" |}.

(** What [adb devices] prints when the devices [serials] are ready. *)
Definition device_listing (serials : list string) : string :=
  "List of devices attached"
  ++ String LF
       (concat "" (map (fun s => s ++ String TAB "device" ++ String LF "") serials)
        ++ String LF "").

(** An [adb] that lists [listing], answers the capture with [capture] and
    the remote removal with [rm], and pulls files without trouble. *)
Definition sample_adb (listing : string) (capture rm : exn + CompletedProcess)
  : list string -> Z -> exn + CompletedProcess :=
  fun cmd _ =>
    if (nth 1 cmd "" =? "devices")%string then completed 0 listing
    else if (nth 4 cmd "" =? "screencap")%string then capture
    else if (nth 4 cmd "" =? "rm")%string then rm
    else completed 0 "1 file pulled".

(** A toy image format: the two dimensions as big-endian 16-bit numbers. *)
Definition dims_bytes (sz : Z * Z) : list byte :=
  let '(w, h) := sz in
  map (fun z => byte_of_N (Z.to_N z)) [w / 256; w mod 256; h / 256; h mod 256].

Definition sample_codec : Codec :=
  {| new_save_PNG := fun _ sz _ => dims_bytes sz;
     png_size := fun b =>
       match map (fun x => Z.of_N (Byte.to_N x)) b with
       | [a; b; c; d] => Some (256 * a + b, 256 * c + d)
       | _ => None
       end |}.

Definition sample_image : ImageFile :=
  {| size := (720, 1280); save_PNG := inr (dims_bytes (720, 1280)) |}.

Definition sample_env (listing : string) (capture rm : exn + CompletedProcess)
  : Env :=
  {| subprocess_run := sample_adb listing capture rm;
     gettempdir := inr "/tmp";
     uuid4_hex := "0f8fad5bd9cb469fa16570867728950e";
     Image_open := fun _ => inr sample_image;
     os_remove := fun _ => inr tt;
     print := fun _ => inr tt |}.

Definition sample_local : string :=
  "/tmp/scr_0f8fad5bd9cb469fa16570867728950e.png".

(** One ready device, and every step succeeds. *)
Definition world_ok : Env :=
  sample_env (device_listing ["emulator-5554"]) (completed 0 "") (completed 0 "").

(** The capture prints [Failed] and exits with status zero. *)
Definition world_refused : Env :=
  sample_env (device_listing ["emulator-5554"]) (completed 0 "Failed")
    (completed 0 "").

(** The capture prints [Failed] and exits with status one. *)
Definition world_capture_exit_1 : Env :=
  sample_env (device_listing ["emulator-5554"]) (completed 1 "Failed")
    (completed 0 "").

(** Everything succeeds except the remote [rm], which exits with status one. *)
Definition world_rm_exit_1 : Env :=
  sample_env (device_listing ["emulator-5554"]) (completed 0 "") (completed 1 "").

(** Two ready devices. *)
Definition world_two_devices : Env :=
  sample_env (device_listing ["emulator-5554"; "emulator-5556"])
    (completed 0 "") (completed 0 "").

(** The listing holds one ready line whose serial field is empty, and the
    capture on that device fails. *)
Definition world_empty_serial : Env :=
  sample_env (device_listing [""]) (completed 1 "") (completed 0 "").

(** A standard output that cannot encode the Chinese messages of the
    module's own [RuntimeError]s (an ASCII or Latin-1 stream): printing
    their diagnostics raises; everything else is printed. *)
Definition print_ascii (x : printed) : exn + unit :=
  match x with
  | diagnostic (RuntimeError_command _ _)
  | diagnostic (RuntimeError_device_count _) =>
      inl (Raised "UnicodeEncodeError" "'ascii' codec can't encode characters")
  | _ => inr tt
  end.

Definition on_ascii_stdout (W : Env) : Env :=
  {| subprocess_run := subprocess_run W;
     gettempdir := gettempdir W;
     uuid4_hex := uuid4_hex W;
     Image_open := Image_open W;
     os_remove := os_remove W;
     print := print_ascii |}.

(** ** Five statements the code does not meet, as the specification words them *)

(** A refusal marker in the output of the capture command always yields a
    sensitive 1080x2400 result (whatever the exit status). *)
Definition marker_always_sensitive (E : Env) (C : Codec)
  (d : option string) (t : Z) : Prop :=
  forall rid cp,
    In (ev_run (capture_cmd rid) t) (events (snd (call E C d t))) ->
    subprocess_run E (capture_cmd rid) t = inr cp ->
    refusal_marker (stdout cp) = true ->
    exists r, fst (call E C d t) = inr r
              /\ is_sensitive r = true /\ width r = 1080 /\ height r = 2400.

(** The [device_id] of the result is never empty. *)
Definition device_id_never_empty (E : Env) (C : Codec)
  (d : option string) (t : Z) : Prop :=
  forall r, fst (call E C d t) = inr r -> device_id r <> "".

(** A supplied device id is the [device_id] of the result. *)
Definition supplied_id_used_verbatim (E : Env) (C : Codec)
  (d : option string) (t : Z) : Prop :=
  forall id, d = Some id ->
    exists r, fst (call E C d t) = inr r /\ device_id r = id.

(** Once the picture is decoded, a remote [rm] that exits non-zero does not
    keep the call from returning the picture. *)
Definition remote_cleanup_is_best_effort (E : Env) (C : Codec)
  (d : option string) (t : Z) : Prop :=
  forall rid img png cp,
    decoded_run E d t rid img png ->
    subprocess_run E (rm_cmd rid) 5 = inr cp ->
    returncode cp <> 0 ->
    fst (call E C d t) = inr (real_screenshot rid img png).

(** The pull is given more time than the capture. *)
Definition pull_timeout_longer (E : Env) (C : Codec)
  (d : option string) (t : Z) : Prop :=
  forall rid rid' local tc tp,
    In (ev_run (capture_cmd rid) tc) (events (snd (call E C d t))) ->
    In (ev_run (pull_cmd rid' local) tp) (events (snd (call E C d t))) ->
    tc < tp.
(** ** Further definitions: listings, budgets and the command-line entry *)

(** [all(p(c) for c in s)] *)
Fixpoint all_chars (p : ascii -> bool) (s : string) : bool :=
  match s with
  | EmptyString => true
  | String c r => p c && all_chars p r
  end.

Definition no_linebreak (c : ascii) : bool := negb (is_linebreak c).

(** A character that neither separates fields nor ends a line. *)
Definition field_char (c : ascii) : bool :=
  negb (c =? TAB)%char && negb (is_linebreak c).

(** The text [adb devices] prints for the given (serial, state) pairs: a
    header, one line per device with a tab between serial and state, and an
    empty line. *)
Definition listing_line (e : string * string) : string :=
  fst e ++ String TAB (snd e).

Definition adb_devices_output (entries : list (string * string)) : string :=
  "List of devices attached"
  ++ String LF
       (concat ""
          (map (fun e => listing_line e ++ String LF "") entries)
        ++ String LF "").

(** A well-formed entry: the serial holds no tab and no line break; the
    state is a non-empty word without white space. *)
Definition well_formed_entry (e : string * string) : Prop :=
  all_chars field_char (fst e) = true
  /\ snd e <> ""
  /\ all_chars (fun c => negb (isspace c)) (snd e) = true.

(** The lines of the listing, each with its line feed in front. *)
Definition listing_body (entries : list (string * string)) : string :=
  concat "" (map (fun e => String LF (listing_line e)) entries).

Definition is_run (e : event) : bool :=
  match e with
  | ev_run _ _ => true
  | _ => false
  end.

Definition is_print (e : event) : bool :=
  match e with
  | ev_print _ => true
  | _ => false
  end.

(** The time a command may take before [subprocess.run] gives up. *)
Definition timeout_of (e : event) : Z :=
  match e with
  | ev_run _ t => t
  | _ => 0
  end.

Definition total_timeout (evs : list event) : Z :=
  fold_right Z.add 0 (map timeout_of evs).

(** The [__main__] block: [get_screenshot()] with its defaults, then the
    record is printed. *)
Definition report (pic : Screenshot) : list (string * json) :=
  [("device_id", JStr (device_id pic));
   ("size", JInts [width pic; height pic]);
   ("is_sensitive", JBool (is_sensitive pic));
   ("base64_len", JInt (Z.of_nat (String.length (base64_data pic))))].

Definition main (E : Env) (C : Codec) : M unit :=
  pic <- get_screenshot E C None 10 ;;
  external (ev_print_record (report pic)) (print E (record (report pic))).

(** [world_ok] with another uuid drawn. *)
Definition world_ok_other_uuid : Env :=
  {| subprocess_run := subprocess_run world_ok;
     gettempdir := gettempdir world_ok;
     uuid4_hex := "1b9d6bcdbbfd4b2d9b5dab8dfbbd4bed";
     Image_open := Image_open world_ok;
     os_remove := os_remove world_ok;
     print := print world_ok |}.

(** A character of base64 text: a letter, a digit, [+], [/] or [=]. *)
Definition base64_char (c : ascii) : bool :=
  existsb (fun x => (x =? c)%char) alphabet || (c =? pad)%char.

(** ** Base64: decoding undoes encoding *)

Module Base64Facts.

#[local] Ltac Zify.zify_post_hook ::= Z.to_euclidean_division_equations.

Local Open Scope N_scope.

Lemma list_ind3 {A : Type} (P : list A -> Prop) :
  P [] ->
  (forall a, P [a]) ->
  (forall a b, P [a; b]) ->
  (forall a b c l, P l -> P (a :: b :: c :: l)) ->
  forall l, P l.
Proof.
  intros H0 H1 H2 H3. fix IH 1.
  intros [| a [| b [| c l]]];
    [exact H0 | apply H1 | apply H2 | apply H3, IH].
Qed.

Lemma byte_of_to_N (b : byte) : byte_of_N (Byte.to_N b) = b.
Proof. unfold byte_of_N. now rewrite Byte.of_to_N. Qed.

Lemma to_N_lt_256 (b : byte) : Byte.to_N b < 256.
Proof. pose proof (Byte.to_N_bounded b). lia. Qed.

(** Every sextet is one of the 64 numbers below. *)
Lemma sextet_cases (n : N) :
  n < 64 -> In n (map N.of_nat (seq 0 64)).
Proof.
  intros H. apply in_map_iff. exists (N.to_nat n). split; [lia |].
  apply in_seq. lia.
Qed.

Lemma index_of_char_of (n : N) :
  n < 64 -> index_of (char_of n) = Some n /\ (char_of n =? pad)%char = false.
Proof.
  intros H.
  assert (Hall : forallb (fun k => match index_of (char_of k) with
                                   | Some i => (i =? k) && negb (char_of k =? pad)%char
                                   | None => false
                                   end) (map N.of_nat (seq 0 64)) = true)
    by (vm_compute; reflexivity).
  rewrite forallb_forall in Hall.
  specialize (Hall n (sextet_cases n H)).
  destruct (index_of (char_of n)) as [i |]; [| discriminate].
  apply andb_true_iff in Hall as [Hi Hp].
  apply N.eqb_eq in Hi. apply negb_true_iff in Hp. now subst.
Qed.

Ltac sextet n :=
  let Hi := fresh "Hi" in
  let Hp := fresh "Hp" in
  destruct (index_of_char_of n) as [Hi Hp]; [lia |];
  rewrite ?Hi, ?Hp.

Theorem b64decode_b64encode (bs : list byte) :
  b64decode (b64encode bs) = Some bs.
Proof.
  induction bs as [| a | a b | a b c rest IH] using list_ind3.
  - reflexivity.
  - cbn [b64encode b64decode].
    pose proof (to_N_lt_256 a).
    sextet (Byte.to_N a / 4). sextet (Byte.to_N a mod 4 * 16).
    rewrite Ascii.eqb_refl.
    replace (_ * 4 + _ / 16) with (Byte.to_N a) by lia.
    now rewrite byte_of_to_N.
  - cbn [b64encode b64decode].
    pose proof (to_N_lt_256 a). pose proof (to_N_lt_256 b).
    sextet (Byte.to_N a / 4).
    sextet (Byte.to_N a mod 4 * 16 + Byte.to_N b / 16).
    sextet (Byte.to_N b mod 16 * 4).
    rewrite Ascii.eqb_refl.
    replace (_ / 4 * 4 + _ / 16) with (Byte.to_N a) by lia.
    replace (_ mod 16 * 16 + _ / 4) with (Byte.to_N b) by lia.
    now rewrite !byte_of_to_N.
  - cbn [b64encode b64decode].
    pose proof (to_N_lt_256 a). pose proof (to_N_lt_256 b).
    pose proof (to_N_lt_256 c).
    sextet (Byte.to_N a / 4).
    sextet (Byte.to_N a mod 4 * 16 + Byte.to_N b / 16).
    sextet (Byte.to_N b mod 16 * 4 + Byte.to_N c / 64).
    sextet (Byte.to_N c mod 64).
    rewrite IH.
    replace (_ / 4 * 4 + _ / 16) with (Byte.to_N a) by lia.
    replace (_ mod 16 * 16 + _ / 4) with (Byte.to_N b) by lia.
    replace (_ mod 4 * 64 + _) with (Byte.to_N c) by lia.
    now rewrite !byte_of_to_N.
Qed.

End Base64Facts.

(** ** Facts about the monad and the paths of a call *)

Lemma _run_eq (E : Env) (cmd : list string) (timeout : Z) (f : frame) :
  _run E cmd timeout f = (run_result E cmd timeout, push (ev_run cmd timeout) f).
Proof.
  cbv [_run run_result bind external log ret raise].
  destruct (subprocess_run E cmd timeout) as [e | cp]; [reflexivity |].
  destruct (returncode cp =? 0); reflexivity.
Qed.

Lemma run_result_succeeds (E : Env) (cmd : list string) (timeout : Z) (out : string) :
  run_result E cmd timeout = inr out <-> succeeds E cmd timeout out.
Proof.
  unfold run_result, succeeds. split.
  - destruct (subprocess_run E cmd timeout) as [e | cp]; [discriminate |].
    destruct (returncode cp =? 0) eqn:Hrc; [| discriminate].
    intros [= <-]. exists cp. rewrite Z.eqb_eq in Hrc. auto.
  - intros (cp & -> & Hrc & <-). rewrite Hrc. reflexivity.
Qed.

Lemma run_result_nonzero (E : Env) (cmd : list string) (timeout : Z) (cp : CompletedProcess) :
  subprocess_run E cmd timeout = inr cp -> returncode cp <> 0 ->
  run_result E cmd timeout = inl (RuntimeError_command cmd (stderr cp)).
Proof.
  unfold run_result. intros -> Hrc.
  apply Z.eqb_neq in Hrc. rewrite Hrc. reflexivity.
Qed.

Lemma truthy_false_or_else (d : option string) (b : string) :
  truthy d = false -> or_else d b = b.
Proof.
  destruct d as [s |]; simpl; [| reflexivity].
  destruct (s =? "")%string; [reflexivity | discriminate].
Qed.

Lemma or_call_truthy (d : option string) (m : M string) :
  truthy d = true -> exists id, d = Some id /\ id <> "" /\ or_call d m = ret id.
Proof.
  destruct d as [s |]; simpl; [| discriminate].
  destruct (s =? "")%string eqn:Hs; [discriminate |].
  intros _. exists s. apply String.eqb_neq in Hs. auto.
Qed.

Lemma or_call_falsy (d : option string) (m : M string) :
  truthy d = false -> or_call d m = m.
Proof.
  destruct d as [s |]; simpl; [| reflexivity].
  destruct (s =? "")%string; [reflexivity | discriminate].
Qed.

Lemma _build_adb_prefix_cases (E : Env) (d : option string) (f : frame) :
  exists o evs,
    resolution E d o evs /\
    _build_adb_prefix E d f =
      (match o with
       | inr rid => inr (["adb"; "-s"; rid], rid)
       | inl e => inl e
       end, extend f evs).
Proof.
  unfold _build_adb_prefix, bind.
  destruct (truthy d) eqn:Ht.
  - destruct (or_call_truthy d (_get_single_device E) Ht) as (id & -> & Hid & ->).
    exists (inr id), []. split; [now apply res_supplied |].
    unfold ret, extend. rewrite app_nil_r. now destruct f.
  - rewrite (or_call_falsy d _ Ht).
    unfold _get_single_device, bind. rewrite _run_eq.
    destruct (run_result E ["adb"; "devices"] 10) as [e | text] eqn:Hrun.
    + exists (inl e), [devices_event]. split; [now apply res_failed | reflexivity].
    + apply run_result_succeeds in Hrun.
      destruct (ready_devices (splitlines (strip text))) as [| serial [| x l]] eqn:Hdev.
      * exists (inl (RuntimeError_device_count 0)), [devices_event].
        split; [| reflexivity].
        replace 0%nat with (List.length (ready_devices (splitlines (strip text))))
          by now rewrite Hdev.
        apply res_ambiguous; auto. now rewrite Hdev.
      * exists (inr serial), [devices_event].
        split; [| reflexivity]. eapply res_single; eauto.
      * eexists (inl _), [devices_event]. split; [| reflexivity].
        replace (List.length (serial :: x :: l))
          with (List.length (ready_devices (splitlines (strip text))))
          by now rewrite Hdev.
        apply res_ambiguous; auto. rewrite Hdev. simpl. lia.
Qed.

Lemma bind_unfold {A B : Type} (m : M A) (k : A -> M B) (f : frame) :
  bind m k f =
    match m f with
    | (inr a, f') => k a f'
    | (inl e, f') => (inl e, f')
    end.
Proof. reflexivity. Qed.

Lemma external_eq {A : Type} (e : event) (answer : exn + A) (f : frame) :
  external e answer f = (answer, push e f).
Proof. destruct answer; reflexivity. Qed.

(** The statements after the capture, run from a frame where [real_id] is
    bound. *)
Lemma transfer_run (E : Env) (rid local : string) (evs0 : list event)
  (k : M Screenshot) :
  k = (_run E (["adb"; "-s"; rid] ++ ["pull"; remote; local]) 30 ;;;
       img <- external (ev_open local) (Image_open E local) ;;
       let '(w, h) := size img in
       buf <- external ev_save (save_PNG img) ;;
       let b64 := b64encode buf in
       external (ev_remove local) (os_remove E local) ;;;
       _run E (["adb"; "-s"; rid] ++ ["shell"; "rm"; "-f"; remote]) 5 ;;;
       ret {| base64_data := b64; width := w; height := h;
              device_id := rid; is_sensitive := false |}) ->
  exists o evs,
    transfer E rid local o evs /\
    k {| real_id := Some rid; events := evs0 |} =
      (o, {| real_id := Some rid; events := evs0 ++ evs |}).
Proof.
  intros ->. fold (pull_cmd rid local) (rm_cmd rid).
  rewrite bind_unfold, _run_eq. unfold push; cbn [real_id events].
  destruct (run_result E (pull_cmd rid local) 30) as [e | out] eqn:Hpull.
  { do 2 eexists. split; [eapply pull_failed; eauto | reflexivity]. }
  rewrite bind_unfold, external_eq. unfold push; cbn [real_id events].
  destruct (Image_open E local) as [e | img] eqn:Hopen.
  { do 2 eexists. split; [eapply open_failed; eauto |].
    now rewrite <- ?app_assoc. }
  destruct (size img) as [w h] eqn:Hsize.
  rewrite bind_unfold, external_eq. unfold push; cbn [real_id events].
  destruct (save_PNG img) as [e | png] eqn:Hsave.
  { do 2 eexists. split; [eapply save_failed; eauto |].
    now rewrite <- ?app_assoc. }
  rewrite bind_unfold, external_eq. unfold push; cbn [real_id events].
  destruct (os_remove E local) as [e | []] eqn:Hremove.
  { do 2 eexists. split; [eapply remove_failed; eauto |].
    now rewrite <- ?app_assoc. }
  rewrite bind_unfold, _run_eq. unfold push; cbn [real_id events].
  destruct (run_result E (rm_cmd rid) 5) as [e | out'] eqn:Hrm.
  { do 2 eexists. split; [eapply rm_failed; eauto |].
    now rewrite <- ?app_assoc. }
  do 2 eexists. split; [eapply all_done; eauto |].
  unfold ret, real_screenshot. rewrite Hsize. now rewrite <- ?app_assoc.
Qed.

Lemma call_path (E : Env) (C : Codec) (d : option string) (t : Z) :
  path E C d t (call E C d t).
Proof.
  unfold call, get_screenshot, try_except.
  rewrite bind_unfold.
  destruct (_build_adb_prefix_cases E d frame0) as (o & evs & Hres & ->).
  destruct o as [e | rid].
  - (* resolution raised: [real_id] is unbound *)
    assert (Hd : truthy d = false) by (inversion Hres; assumption).
    rewrite bind_unfold, external_eq.
    pose proof (path_unresolved E C d t e evs Hres) as Hp.
    unfold absorbed, handled in Hp.
    destruct (print E (diagnostic e)) as [e' | []];
      cbv [bind ret local_real_id push extend frame0 real_id events];
      [| rewrite (truthy_false_or_else d "unknown" Hd)]; exact Hp.
  - rewrite bind_unfold. unfold bind_real_id at 1.
    change (events (extend frame0 evs)) with evs.
    assert (Hhandler : forall (e : exn) (evs' : list event),
      (external (ev_print e) (print E (diagnostic e)) ;;;
       bound <- local_real_id ;;
       ret (_black_fallback C
              match bound with
              | Some real_id => real_id
              | None => or_else d "unknown"
              end false))
        {| real_id := Some rid; events := evs' |}
      = absorbed E C rid (Some rid) (inl e) evs').
    { intros e evs'. rewrite bind_unfold, external_eq.
      unfold absorbed, handled.
      destruct (print E (diagnostic e)) as [e' | []]; reflexivity. }
    assert (Hpath : forall o evs', body E C rid t o evs' ->
              path E C d t (absorbed E C rid (Some rid) o (evs ++ evs')))
      by (intros; now apply path_resolved).
    rewrite bind_unfold, external_eq. unfold push; cbn [real_id events].
    destruct (gettempdir E) as [e | tmp] eqn:Htmp.
    { rewrite Hhandler. apply Hpath. eapply body_no_tmp; eauto. }
    rewrite bind_unfold, _run_eq. unfold push; cbn [real_id events].
    fold (capture_cmd rid).
    destruct (run_result E (capture_cmd rid) t) as [e | out] eqn:Hcap.
    { rewrite Hhandler, <- app_assoc. apply Hpath.
      eapply body_capture_failed; eauto. }
    destruct (refusal_marker out) eqn:Hmark.
    { unfold ret. rewrite <- app_assoc. apply (Hpath (inr _)).
      eapply body_refused; eauto. }
    edestruct (transfer_run E rid (local_path E tmp)) as (o & evs' & Htr & ->);
      [reflexivity |].
    rewrite <- ?app_assoc.
    pose proof (Hpath o _ (body_captured E C rid t tmp out o evs' Htmp Hcap Hmark Htr))
      as Hp.
    destruct o as [e | r]; [rewrite Hhandler |]; exact Hp.
Qed.

Lemma resolution_sound (E : Env) (d : option string) (o : exn + string)
  (evs : list event) (f : frame) :
  resolution E d o evs ->
  _build_adb_prefix E d f =
    (match o with
     | inr rid => inr (["adb"; "-s"; rid], rid)
     | inl e => inl e
     end, extend f evs).
Proof.
  intros Hres. unfold _build_adb_prefix. rewrite bind_unfold.
  assert (Hsingle : truthy d = false ->
            or_call d (_get_single_device E) f
            = (match run_result E ["adb"; "devices"] 10 with
               | inl e => inl e
               | inr text =>
                   let devices := ready_devices (splitlines (strip text)) in
                   if negb (List.length devices =? 1)%nat
                   then inl (RuntimeError_device_count (List.length devices))
                   else inr (nth 0 devices "")
               end, extend f [devices_event])).
  { intros Hd. rewrite (or_call_falsy d _ Hd).
    unfold _get_single_device. rewrite bind_unfold, _run_eq.
    destruct (run_result E ["adb"; "devices"] 10) as [e | text];
      [reflexivity |].
    cbv zeta.
    destruct (negb (List.length (ready_devices (splitlines (strip text))) =? 1)%nat);
      reflexivity. }
  destruct Hres as [id -> Hid | text serial Hd Hrun Hdev | text Hd Hrun Hlen
                   | e Hd Hrun].
  - apply String.eqb_neq in Hid. simpl. rewrite Hid.
    unfold ret, extend. rewrite app_nil_r. now destruct f.
  - apply run_result_succeeds in Hrun.
    rewrite (Hsingle Hd), Hrun. cbv zeta. now rewrite Hdev.
  - apply run_result_succeeds in Hrun.
    rewrite (Hsingle Hd), Hrun. cbv zeta.
    apply Nat.eqb_neq in Hlen. now rewrite Hlen.
  - now rewrite (Hsingle Hd), Hrun.
Qed.

Lemma resolution_resolves (E : Env) (d : option string) (rid : string)
  (evs : list event) :
  resolution E d (inr rid) evs -> resolves_to E d rid.
Proof.
  intros H. exists (extend frame0 evs).
  apply (resolution_sound E d (inr rid) evs frame0 H).
Qed.

Lemma resolves_to_resolution (E : Env) (d : option string) (rid : string)
  (o : exn + string) (evs : list event) :
  resolves_to E d rid -> resolution E d o evs -> o = inr rid.
Proof.
  intros [f Hf] H.
  rewrite (resolution_sound E d o evs frame0 H) in Hf.
  destruct o; congruence.
Qed.

Lemma resolution_events (E : Env) (d : option string) (o : exn + string)
  (evs : list event) :
  resolution E d o evs -> evs = [] \/ evs = [devices_event].
Proof. destruct 1; auto. Qed.

Lemma resolution_deterministic (E : Env) (d : option string)
  (o o' : exn + string) (evs evs' : list event) :
  resolution E d o evs -> resolution E d o' evs' -> o = o' /\ evs = evs'.
Proof.
  intros H H'.
  pose proof (resolution_sound E d o evs frame0 H) as Hs.
  rewrite (resolution_sound E d o' evs' frame0 H') in Hs.
  injection Hs as Ho Hevs. split; [| symmetry; exact Hevs].
  destruct o, o'; congruence.
Qed.

(** ** The model on concrete inputs

    The values on the right are what CPython returns for the same calls. *)

Example splitlines_mixed :
  splitlines ("a" ++ String CR (String LF "b") ++ String LF (String LF "c")
              ++ String CR "")
  = ["a"; "b"; ""; "c"].
Proof. reflexivity. Qed.

Example split_on_tab :
  split ("serial" ++ String TAB "device" ++ String TAB "") TAB
  = ["serial"; "device"; ""].
Proof. reflexivity. Qed.

Example strip_both_ends :
  strip (String LF "  a b " ++ String TAB (String LF "")) = "a b".
Proof. reflexivity. Qed.

Example b64encode_examples :
  b64encode [x4d; x61; x6e] = "TWFu"
  /\ b64encode [x4d; x61] = "TWE="
  /\ b64encode [x4d] = "TQ=="
  /\ b64encode [xff; xfe; xfd; x00] = "//79AA==".
Proof. repeat split. Qed.

Example ready_devices_of_listing :
  ready_devices
    (splitlines
       (strip ("List of devices attached"
               ++ String LF ("emulator-5554" ++ String TAB "device")
               ++ String LF ("0123456789ABCDEF" ++ String TAB "offline")
               ++ String LF (String LF ""))))
  = ["emulator-5554"].
Proof. reflexivity. Qed.

Example call_world_ok :
  call world_ok sample_codec None 10
  = (inr {| base64_data := "AtAFAA=="; width := 720; height := 1280;
            device_id := "emulator-5554"; is_sensitive := false |},
     {| real_id := Some "emulator-5554";
        events := [ev_run ["adb"; "devices"] 10;
                   ev_gettempdir;
                   ev_run (capture_cmd "emulator-5554") 10;
                   ev_run (pull_cmd "emulator-5554" sample_local) 30;
                   ev_open sample_local;
                   ev_save;
                   ev_remove sample_local;
                   ev_run (rm_cmd "emulator-5554") 5] |}).
Proof. reflexivity. Qed.

Example call_world_two_devices :
  call world_two_devices sample_codec None 10
  = (inr (_black_fallback sample_codec "unknown" false),
     {| real_id := None;
        events := [ev_run ["adb"; "devices"] 10;
                   ev_print (RuntimeError_device_count 2)] |}).
Proof. reflexivity. Qed.

(** ** Facts about the string methods *)

Module PyStrFacts.

Lemma append_nil_r (s : string) : (s ++ "")%string = s.
Proof. induction s as [| c s IH]; simpl; congruence. Qed.

Lemma append_assoc (a b c : string) :
  ((a ++ b) ++ c)%string = (a ++ (b ++ c))%string.
Proof. induction a as [| x a IH]; simpl; congruence. Qed.

Lemma length_append (a b : string) :
  String.length (a ++ b) = (String.length a + String.length b)%nat.
Proof. induction a as [| x a IH]; simpl; congruence. Qed.

Lemma append_inj_l (a b c : string) :
  (a ++ b)%string = (a ++ c)%string -> b = c.
Proof. induction a as [| x a IH]; simpl; intros H; [| injection H]; auto. Qed.

Lemma append_inj_r (c a b : string) :
  (a ++ c)%string = (b ++ c)%string -> a = b.
Proof.
  revert b. induction a as [| x a IH]; intros [| y b] H; simpl in H.
  - reflexivity.
  - apply (f_equal String.length) in H. simpl in H.
    rewrite length_append in H. lia.
  - apply (f_equal String.length) in H. simpl in H.
    rewrite length_append in H. lia.
  - injection H as -> H. f_equal. now apply IH.
Qed.

Lemma all_chars_append (p : ascii -> bool) (a b : string) :
  all_chars p (a ++ b) = all_chars p a && all_chars p b.
Proof.
  induction a as [| x a IH]; simpl; [reflexivity |].
  now rewrite IH, andb_assoc.
Qed.

(** *** [in] *)

Lemma prefix_iff (p s : string) :
  prefix p s = true <-> exists r, s = (p ++ r)%string.
Proof.
  revert s. induction p as [| x p IH]; intros s.
  - split; [intros _; now exists s | intros _; now destruct s].
  - destruct s as [| y s]; simpl;
      [split; [discriminate | intros [r H]; discriminate] |].
    destruct (ascii_dec x y) as [-> | Hxy].
    + rewrite IH. split; intros [r H]; exists r; [now subst | now injection H].
    + split; [discriminate | intros [r H]; injection H; intros; congruence].
Qed.

Lemma contains_iff (needle hay : string) :
  contains needle hay = true
  <-> exists a b, hay = (a ++ needle ++ b)%string.
Proof.
  induction hay as [| y hay IH].
  - cbn [contains]. rewrite orb_false_r, prefix_iff. split.
    + intros [r H]. now exists "", r.
    + intros (a & b & H). destruct a as [| x a]; [now exists b | discriminate].
  - cbn [contains]. rewrite orb_true_iff, IH, prefix_iff. split.
    + intros [[r H] | (a & b & H)].
      * now exists "", r.
      * exists (String y a), b. simpl. now rewrite H.
    + intros (a & b & H). destruct a as [| x a].
      * left. now exists b.
      * right. injection H as _ H. now exists a, b.
Qed.


(** *** [strip] *)

Lemma lstrip_nonspace (c : ascii) (r : string) :
  isspace c = false -> lstrip (String c r) = String c r.
Proof. intros H. simpl. now rewrite H. Qed.

Lemma rstrip_all_space (w : string) :
  all_chars isspace w = true -> rstrip w = "".
Proof.
  induction w as [| c w IH]; simpl; [reflexivity |].
  intros H. apply andb_true_iff in H as [Hc Hw].
  now rewrite (IH Hw), Hc.
Qed.

Lemma rstrip_append_space (s w : string) :
  all_chars isspace w = true -> rstrip (s ++ w) = rstrip s.
Proof.
  intros Hw. induction s as [| c s IH]; simpl.
  - now apply rstrip_all_space.
  - now rewrite IH.
Qed.

Lemma rstrip_snoc (s : string) (c : ascii) :
  isspace c = false -> rstrip (s ++ String c "") = (s ++ String c "")%string.
Proof.
  intros Hc. induction s as [| x s IH]; simpl.
  - now rewrite Hc.
  - rewrite IH. now destruct s.
Qed.

(** *** [splitlines] *)

Lemma string_ind2 (P : string -> Prop) :
  P "" ->
  (forall c, P (String c "")) ->
  (forall c1 c2 s, P s -> P (String c2 s) -> P (String c1 (String c2 s))) ->
  forall s, P s.
Proof.
  intros H0 H1 H2.
  assert (H : forall s, P s /\ forall c, P (String c s)).
  { induction s as [| c s [IHs IHc]]; split; auto. }
  intros s. apply H.
Qed.

Lemma splitlines_from_field (a cur rest : string) :
  all_chars no_linebreak a = true ->
  splitlines_from cur (a ++ rest) = splitlines_from (cur ++ a) rest.
Proof.
  revert cur. induction a as [| c a IH]; intros cur H; simpl.
  - now rewrite append_nil_r.
  - apply andb_true_iff in H as [Hc Ha].
    apply negb_true_iff in Hc. rewrite Hc, (IH _ Ha), append_assoc.
    reflexivity.
Qed.

Lemma splitlines_from_LF (cur rest : string) :
  splitlines_from cur (String LF rest) = cur :: splitlines_from "" rest.
Proof. destruct rest; reflexivity. Qed.

Lemma splitlines_from_lines (s : string) :
  forall cur ln,
    all_chars no_linebreak cur = true ->
    In ln (splitlines_from cur s) ->
    all_chars no_linebreak ln = true.
Proof.
  induction s as [| c | c1 c2 s IHs IHc] using string_ind2;
    intros cur ln Hcur Hin.
  - simpl in Hin. destruct (cur =? "")%string; [destruct Hin |].
    destruct Hin as [<- | []]. exact Hcur.
  - simpl in Hin. destruct (is_linebreak c) eqn:Hc.
    + destruct Hin as [<- | []]. exact Hcur.
    + destruct ((cur ++ String c "") =? "")%string; [destruct Hin |].
      destruct Hin as [<- | []].
      rewrite all_chars_append, Hcur. simpl. unfold no_linebreak.
      now rewrite Hc.
  - cbn [splitlines_from] in Hin. destruct (is_linebreak c1) eqn:Hc.
    + destruct Hin as [<- | Hin]; [exact Hcur |].
      destruct ((c1 =? CR) && (c2 =? LF))%char.
      * now apply (IHs "" ln).
      * now apply (IHc "" ln).
    + apply (IHc (cur ++ String c1 "")%string ln); [| exact Hin].
      rewrite all_chars_append, Hcur. simpl. unfold no_linebreak.
      now rewrite Hc.
Qed.

(** *** [split] *)

Lemma split_from_field (sep : ascii) (a cur rest : string) :
  all_chars (fun c => negb (c =? sep)%char) a = true ->
  split_from sep cur (a ++ String sep rest)
  = (cur ++ a)%string :: split_from sep "" rest.
Proof.
  revert cur. induction a as [| c a IH]; intros cur H; simpl.
  - now rewrite Ascii.eqb_refl, append_nil_r.
  - apply andb_true_iff in H as [Hc Ha].
    apply negb_true_iff in Hc. rewrite Hc, (IH _ Ha), append_assoc.
    reflexivity.
Qed.

Lemma split_from_head (ln cur : string) :
  all_chars no_linebreak ln = true ->
  all_chars field_char cur = true ->
  all_chars field_char (nth 0 (split_from TAB cur ln) "") = true.
Proof.
  revert cur. induction ln as [| c ln IH]; intros cur Hln Hcur; simpl.
  - exact Hcur.
  - apply andb_true_iff in Hln as [Hc Hln].
    destruct (c =? TAB)%char eqn:Ht; [exact Hcur |].
    apply IH; [exact Hln |].
    rewrite all_chars_append, Hcur. simpl. unfold field_char.
    rewrite Ht. unfold no_linebreak in Hc. now rewrite Hc.
Qed.

(** *** [endswith] *)

Lemma substring_all (s : string) : substring 0 (String.length s) s = s.
Proof. induction s as [| c s IH]; simpl; congruence. Qed.

Lemma eqb_length (a b : string) :
  String.length a <> String.length b -> (a =? b)%string = false.
Proof. intros H. apply String.eqb_neq. congruence. Qed.

Lemma endswith_cons (c : ascii) (s suffix : string) :
  endswith (String c s) suffix
  = (String c s =? suffix)%string || endswith s suffix.
Proof.
  unfold endswith. cbn [String.length].
  destruct (Nat.leb_spec (String.length suffix) (String.length s)) as [Hle | Hgt].
  - replace (String.length suffix <=? S (String.length s))%nat with true
      by (symmetry; apply Nat.leb_le; lia).
    replace (S (String.length s) - String.length suffix)%nat
      with (S (String.length s - String.length suffix)) by lia.
    cbn [substring andb].
    rewrite (eqb_length (String c s) suffix) by (simpl; lia).
    reflexivity.
  - rewrite orb_false_r.
    destruct (Nat.eq_dec (String.length suffix) (S (String.length s))) as [He | Hne].
    + rewrite He, Nat.leb_refl, Nat.sub_diag.
      change (S (String.length s)) with (String.length (String c s)).
      now rewrite substring_all.
    + replace (String.length suffix <=? S (String.length s))%nat with false
        by (symmetry; apply Nat.leb_gt; lia).
      rewrite (eqb_length (String c s) suffix) by (simpl; lia).
      reflexivity.
Qed.

Lemma endswith_no_sep (sep : ascii) (s tail : string) :
  all_chars (fun c => negb (c =? sep)%char) s = true ->
  endswith s (String sep tail) = false.
Proof.
  induction s as [| c s IH]; intros H.
  - reflexivity.
  - apply andb_true_iff in H as [Hc Hs].
    rewrite endswith_cons, (IH Hs), orb_false_r.
    apply String.eqb_neq. intros [= -> _].
    now rewrite Ascii.eqb_refl in Hc.
Qed.

Lemma endswith_line (sep : ascii) (a b tail : string) :
  all_chars (fun c => negb (c =? sep)%char) a = true ->
  all_chars (fun c => negb (c =? sep)%char) b = true ->
  endswith (a ++ String sep b) (String sep tail) = (b =? tail)%string.
Proof.
  intros Ha Hb. induction a as [| c a IH]; simpl append.
  - rewrite endswith_cons, (endswith_no_sep sep b tail Hb), orb_false_r.
    simpl. now rewrite Ascii.eqb_refl.
  - apply andb_true_iff in Ha as [Hc Ha].
    rewrite endswith_cons, (IH Ha).
    replace (String c (a ++ String sep b) =? String sep tail)%string with false;
      [reflexivity |].
    symmetry. apply String.eqb_neq. intros [= -> _].
    now rewrite Ascii.eqb_refl in Hc.
Qed.

End PyStrFacts.

(** ** The device listing and its parser *)

Import PyStrFacts.

Lemma all_chars_impl (p q : ascii -> bool) (s : string) :
  (forall c, p c = true -> q c = true) ->
  all_chars p s = true -> all_chars q s = true.
Proof.
  intros Hpq. induction s as [| c s IH]; simpl; [reflexivity |].
  intros H. apply andb_true_iff in H as [Hc Hs].
  now rewrite (Hpq c Hc), (IH Hs).
Qed.

Lemma linebreak_is_space (c : ascii) : is_linebreak c = true -> isspace c = true.
Proof.
  destruct c as [[] [] [] [] [] [] [] []]; vm_compute; congruence.
Qed.

Lemma TAB_is_space : isspace TAB = true.
Proof. reflexivity. Qed.

Lemma nonspace_no_linebreak (c : ascii) :
  negb (isspace c) = true -> no_linebreak c = true.
Proof.
  unfold no_linebreak. intros H. apply negb_true_iff in H.
  apply negb_true_iff. destruct (is_linebreak c) eqn:Hl; [| reflexivity].
  now rewrite (linebreak_is_space c Hl) in H.
Qed.

Lemma nonspace_not_TAB (c : ascii) :
  negb (isspace c) = true -> negb (c =? TAB)%char = true.
Proof.
  intros H. apply negb_true_iff in H. apply negb_true_iff.
  destruct (c =? TAB)%char eqn:Ht; [| reflexivity].
  apply Ascii.eqb_eq in Ht. subst c. now rewrite TAB_is_space in H.
Qed.

Lemma field_char_not_TAB (c : ascii) :
  field_char c = true -> negb (c =? TAB)%char = true.
Proof. unfold field_char. intros H. now apply andb_true_iff in H. Qed.

Lemma field_char_no_linebreak (c : ascii) :
  field_char c = true -> no_linebreak c = true.
Proof. unfold field_char. intros H. now apply andb_true_iff in H. Qed.

Lemma concat_cons (x : string) (xs : list string) :
  concat "" (x :: xs) = (x ++ concat "" xs)%string.
Proof. destruct xs; simpl; [now rewrite append_nil_r | reflexivity]. Qed.

Lemma listing_shift (entries : list (string * string)) (w : string) :
  String LF
    (concat "" (map (fun e => listing_line e ++ String LF "") entries) ++ w)
  = (listing_body entries ++ String LF w)%string.
Proof.
  unfold listing_body.
  induction entries as [| e es IH]; [reflexivity |].
  cbn [map]. rewrite !concat_cons.
  cbn [append]. rewrite !append_assoc. cbn [append].
  now rewrite IH.
Qed.

Lemma adb_devices_output_eq (entries : list (string * string)) :
  adb_devices_output entries
  = ("List of devices attached" ++ listing_body entries
     ++ String LF (String LF ""))%string.
Proof. unfold adb_devices_output. now rewrite listing_shift. Qed.

Lemma rstrip_append_keep (a b : string) :
  b <> "" -> rstrip b = b -> rstrip (a ++ b) = (a ++ b)%string.
Proof.
  intros Hb Hr. induction a as [| x a IH]; simpl; [exact Hr |].
  rewrite IH. destruct a; [now destruct b | reflexivity].
Qed.

Lemma rstrip_word (w : string) :
  all_chars (fun c => negb (isspace c)) w = true -> rstrip w = w.
Proof.
  induction w as [| c w IH]; simpl; [reflexivity |].
  intros H. apply andb_true_iff in H as [Hc Hw].
  rewrite (IH Hw). apply negb_true_iff in Hc. rewrite Hc. now destruct w.
Qed.

Lemma rstrip_listing (entries : list (string * string)) (a : string) :
  (forall e, In e entries -> well_formed_entry e) ->
  a <> "" -> rstrip a = a ->
  rstrip (a ++ listing_body entries) = (a ++ listing_body entries)%string.
Proof.
  unfold listing_body. revert a.
  induction entries as [| e es IH]; intros a Hwf Ha Hr.
  - simpl. now rewrite append_nil_r.
  - cbn [map]. rewrite concat_cons, <- append_assoc.
    destruct (Hwf e (or_introl eq_refl)) as (_ & Hne & Hword).
    apply IH.
    + intros e' He'. apply Hwf. now right.
    + destruct a; discriminate.
    + unfold listing_line.
      replace (a ++ String LF (fst e ++ String TAB (snd e)))%string
        with ((a ++ String LF (fst e ++ String TAB "")) ++ snd e)%string
        by (rewrite !append_assoc; cbn [append]; rewrite append_assoc;
            reflexivity).
      apply rstrip_append_keep; [exact Hne | now apply rstrip_word].
Qed.

Lemma strip_adb_devices_output (entries : list (string * string)) :
  (forall e, In e entries -> well_formed_entry e) ->
  strip (adb_devices_output entries)
  = ("List of devices attached" ++ listing_body entries)%string.
Proof.
  intros Hwf. rewrite adb_devices_output_eq. unfold strip.
  change (lstrip ("List of devices attached" ++ listing_body entries
                  ++ String LF (String LF "")))
    with ("List of devices attached" ++ listing_body entries
          ++ String LF (String LF ""))%string.
  rewrite <- append_assoc, rstrip_append_space by reflexivity.
  apply rstrip_listing; [exact Hwf | discriminate | reflexivity].
Qed.

Lemma listing_line_no_linebreak (e : string * string) :
  well_formed_entry e -> all_chars no_linebreak (listing_line e) = true.
Proof.
  intros (Hs & _ & Hw). unfold listing_line.
  rewrite all_chars_append. cbn [all_chars].
  rewrite (all_chars_impl _ _ _ field_char_no_linebreak Hs).
  now rewrite (all_chars_impl _ _ _ nonspace_no_linebreak Hw).
Qed.

Lemma splitlines_listing (entries : list (string * string)) (cur : string) :
  (forall e, In e entries -> well_formed_entry e) ->
  cur <> "" ->
  splitlines_from cur (listing_body entries) = cur :: map listing_line entries.
Proof.
  unfold listing_body. revert cur.
  induction entries as [| e es IH]; intros cur Hwf Hcur.
  - simpl. apply String.eqb_neq in Hcur. now rewrite Hcur.
  - cbn [map]. rewrite concat_cons. cbn [append].
    rewrite splitlines_from_LF. f_equal.
    rewrite splitlines_from_field
      by (apply listing_line_no_linebreak, Hwf; now left).
    cbn [append]. apply IH.
    + intros e' He'. apply Hwf. now right.
    + unfold listing_line. destruct (fst e); discriminate.
Qed.

Lemma ready_devices_lines (entries : list (string * string)) :
  (forall e, In e entries -> well_formed_entry e) ->
  ready_devices (map listing_line entries)
  = map fst (filter (fun e => (snd e =? "device")%string) entries).
Proof.
  unfold ready_devices.
  induction entries as [| e es IH]; intros Hwf; [reflexivity |].
  destruct (Hwf e (or_introl eq_refl)) as (Hs & _ & Hw).
  pose proof (all_chars_impl _ _ _ field_char_not_TAB Hs) as Hs'.
  pose proof (all_chars_impl _ _ _ nonspace_not_TAB Hw) as Hw'.
  cbn [map filter]. unfold listing_line at 1.
  rewrite (endswith_line TAB _ _ "device" Hs' Hw').
  assert (Hes : forall e', In e' es -> well_formed_entry e')
    by (intros e' He'; apply Hwf; now right).
  destruct (snd e =? "device")%string; cbn [map]; rewrite (IH Hes);
    [| reflexivity].
  f_equal.
  unfold split, listing_line. now rewrite (split_from_field TAB _ "" _ Hs').
Qed.

Lemma ready_devices_adb_devices_output (entries : list (string * string)) :
  (forall e, In e entries -> well_formed_entry e) ->
  ready_devices (splitlines (strip (adb_devices_output entries)))
  = map fst (filter (fun e => (snd e =? "device")%string) entries).
Proof.
  intros Hwf. rewrite (strip_adb_devices_output entries Hwf).
  unfold splitlines.
  rewrite splitlines_from_field by reflexivity. cbn [append].
  rewrite (splitlines_listing entries _ Hwf) by discriminate.
  change (ready_devices ("List of devices attached" :: map listing_line entries))
    with (ready_devices (map listing_line entries)).
  now apply ready_devices_lines.
Qed.

(** X1.  On a well-formed listing (serials without tab or line break,
    states non-empty words), [_get_single_device] returns the serial of the
    one entry in state "device" and raises, with the number of such entries,
    when there is none or more than one; entries in any other state and the
    header line never count. *)
Theorem get_single_device_on_listing (E : Env)
  (entries : list (string * string)) (f : frame) :
  succeeds E ["adb"; "devices"] 10 (adb_devices_output entries) ->
  (forall e, In e entries -> well_formed_entry e) ->
  _get_single_device E f
  = (match map fst (filter (fun e => (snd e =? "device")%string) entries) with
     | [serial] => inr serial
     | ready => inl (RuntimeError_device_count (List.length ready))
     end,
     push (ev_run ["adb"; "devices"] 10) f).
Proof.
  intros Hrun Hwf. apply run_result_succeeds in Hrun.
  unfold _get_single_device. rewrite bind_unfold, _run_eq, Hrun.
  cbv zeta. rewrite (ready_devices_adb_devices_output entries Hwf).
  destruct (map fst (filter (fun e => (snd e =? "device")%string) entries))
    as [| serial [| serial' ready]]; reflexivity.
Qed.

Lemma get_single_device_on_listing_witness :
  _get_single_device
    (sample_env (adb_devices_output
                   [("0123456789ABCDEF", "offline"); ("emulator-5554", "device");
                    ("R58M123ABC", "unauthorized")])
                (completed 0 "") (completed 0 "")) frame0
  = (inr "emulator-5554",
     {| real_id := None; events := [ev_run ["adb"; "devices"] 10] |}).
Proof.
  apply (get_single_device_on_listing
           (sample_env (adb_devices_output
                          [("0123456789ABCDEF", "offline");
                           ("emulator-5554", "device");
                           ("R58M123ABC", "unauthorized")])
                       (completed 0 "") (completed 0 ""))
           [("0123456789ABCDEF", "offline"); ("emulator-5554", "device");
            ("R58M123ABC", "unauthorized")] frame0).
  - eexists. repeat split.
  - intros e [<- | [<- | [<- | []]]]; repeat split; discriminate.
Defined.

(** X2.  A device id taken from the listing is a clean field: when no
    (non-empty) id is supplied and resolution completes, the resolved id
    holds no tab and no line-break character, whatever [adb devices]
    printed. *)
Theorem listed_serial_is_one_field (E : Env) (d : option string) (rid : string) :
  truthy d = false ->
  resolves_to E d rid ->
  all_chars field_char rid = true.
Proof.
  intros Hd Hr.
  destruct (_build_adb_prefix_cases E d frame0) as (o & evs & Hres & _).
  pose proof (resolves_to_resolution _ _ _ _ _ Hr Hres) as ->.
  inversion Hres as [id Hsome Hid | text serial _ Hrun Hdev | |]; subst.
  - simpl in Hd. apply negb_false_iff, String.eqb_eq in Hd. contradiction.
  - assert (Hin : In rid (ready_devices (splitlines (strip text))))
      by (rewrite Hdev; now left).
    unfold ready_devices in Hin. apply in_map_iff in Hin as (ln & <- & Hln).
    apply filter_In in Hln as [Hln _].
    apply split_from_head; [| reflexivity].
    now apply (splitlines_from_lines (strip text) "" ln).
Qed.

Lemma listed_serial_is_one_field_witness :
  all_chars field_char "emulator-5554" = true.
Proof.
  apply (listed_serial_is_one_field world_ok None "emulator-5554").
  - reflexivity.
  - eexists. reflexivity.
Defined.

(** ** Properties of [get_screenshot] *)

(** Case analysis on the path a call follows. *)
Ltac call_cases E C d t :=
  repeat match goal with
         | H : context [call E C d t] |- _ => revert H
         end;
  destruct (call_path E C d t)
    as [e evs Hres | rid1 evs evs' o Hres Hbody];
  [ | destruct Hbody
        as [e Htmp | tmp e Htmp Hcap | tmp out1 Htmp Hcap Hmark
           | tmp out1 o evs' Htmp Hcap Hmark Htr];
      [ | | | destruct Htr
                as [e Hpull | out2 e Hpull Hopen | out2 img e Hpull Hopen Hsave
                   | out2 img png e Hpull Hopen Hsave Hremove
                   | out2 img png e Hpull Hopen Hsave Hremove Hrm
                   | out2 out3 img png Hpull Hopen Hsave Hremove Hrm ] ] ];
  cbn [absorbed fst snd events]; intros.

(** Membership of an event in the trace of a path, spelled out. *)
Ltac spell_out_trace Hres :=
  let H := fresh in
  pose proof (resolution_events _ _ _ _ Hres) as H;
  destruct H as [-> | ->];
  repeat match goal with
         | Hin : In _ (_ ++ _) |- _ => apply in_app_or in Hin
         | Hin : In _ (_ :: _) |- _ => destruct Hin as [Hin | Hin]
         | Hin : In _ [] |- _ => destruct Hin
         | Hin : _ \/ _ |- _ => destruct Hin as [Hin | Hin]
         end.

Lemma fallback_fields (C : Codec) (id : string) (b : bool) :
  base64_data (_black_fallback C id b) = placeholder_data C
  /\ width (_black_fallback C id b) = 1080
  /\ height (_black_fallback C id b) = 2400
  /\ device_id (_black_fallback C id b) = id
  /\ is_sensitive (_black_fallback C id b) = b.
Proof. repeat split. Qed.

(** An equation between two external calls: absurd, or the calls agree. *)
Ltac event_eq H :=
  cbv [capture_cmd pull_cmd rm_cmd devices_event app] in H;
  first [ discriminate H | injection H; clear H; intros; subst ].

Ltac to_run_result :=
  repeat match goal with
         | H : succeeds _ _ _ _ |- _ => apply run_result_succeeds in H
         end.

Ltac event_eqs :=
  repeat match goal with
         | H : _ = ev_run _ _ |- _ => event_eq H
         | H : _ = ev_open _ |- _ => event_eq H
         | H : _ = ev_save |- _ => event_eq H
         | H : _ = ev_print _ |- _ => event_eq H
         end.

(** From [fst (call ...) = inr r] on a path: the print did not raise, and
    [r] is what the path returns. *)
Ltac returned H :=
  unfold handled in H;
  try match type of H with
      | context [print ?E ?x] =>
          destruct (print E x) as [? | []] eqn:?; [discriminate H |]
      end;
  injection H as <-.

(** A call returns exactly when its diagnostic, if any, is printed without
    an exception. *)
Lemma call_returns_iff (E : Env) (C : Codec) (d : option string) (t : Z) :
  (exists r, fst (call E C d t) = inr r) <-> diagnostic_printed E C d t.
Proof.
  unfold diagnostic_printed. split.
  - intros [r Hcall] exc Hin.
    call_cases E C d t; try returned Hcall;
      spell_out_trace Hres;
      first [ discriminate Hin | injection Hin as <-; assumption ].
  - intros Hprint.
    call_cases E C d t; unfold handled;
      try (rewrite Hprint by (rewrite ?in_app_iff; simpl; auto 10));
      eexists; reflexivity.
Qed.

(** A call raises exactly what printing its diagnostic raises. *)
Lemma call_raises_iff (E : Env) (C : Codec) (d : option string) (t : Z)
  (e' : exn) :
  fst (call E C d t) = inl e'
  <-> exists exc,
        In (ev_print exc) (events (snd (call E C d t)))
        /\ print E (diagnostic exc) = inl e'.
Proof.
  split.
  - intros Hcall.
    call_cases E C d t; try discriminate Hcall;
      unfold handled in Hcall;
      (exists e; split; [rewrite ?in_app_iff; simpl; auto 10 |]);
      (destruct (print E (diagnostic e)) as [x | []];
       [congruence | discriminate Hcall]).
  - intros (exc & Hin & Hprint).
    call_cases E C d t;
      spell_out_trace Hres;
      first [ discriminate Hin
            | injection Hin as <-; unfold handled; now rewrite Hprint ].
Qed.

(** The [device_id] of a returned result: the resolved id, or "unknown". *)
Lemma device_id_of_call (E : Env) (C : Codec) (d : option string) (t : Z)
  (r : Screenshot) :
  fst (call E C d t) = inr r ->
  (forall rid, resolves_to E d rid -> device_id r = rid)
  /\ ((forall rid, ~ resolves_to E d rid) ->
      device_id r = "unknown" /\ truthy d = false)
  /\ (device_id r = "" -> truthy d = false /\ resolves_to E d "").
Proof.
  intros Hcall.
  call_cases E C d t; returned Hcall;
    cbn [_black_fallback real_screenshot device_id].
  1: { (* resolution raised *)
    assert (Hd : truthy d = false) by (inversion Hres; assumption).
    split; [| split].
    - intros rid Hr. pose proof (resolves_to_resolution _ _ _ _ _ Hr Hres).
      discriminate.
    - auto.
    - discriminate. }
  all: pose proof (resolution_resolves _ _ _ _ Hres) as Hrid;
    (split; [| split]);
    [ intros rid' Hr;
      pose proof (resolves_to_resolution _ _ _ _ _ Hr Hres); congruence
    | intros Hno; elim (Hno rid1 Hrid)
    | intros ->; split; [| exact Hrid];
      inversion Hres; [congruence | assumption] ].
Qed.

(** A run that decodes the picture ends as the remote [rm] decides. *)
Lemma decoded_run_call (E : Env) (C : Codec) (d : option string) (t : Z)
  (rid : string) (img0 : ImageFile) (png0 : list byte) :
  decoded_run E d t rid img0 png0 ->
  fst (call E C d t)
  = match run_result E (rm_cmd rid) 5 with
    | inr _ => inr (real_screenshot rid img0 png0)
    | inl e => handled E C rid e
    end.
Proof.
  intros [tmp0 cap0 pull0 Hr Htmp0 Hcap0 Hmark0 Hpull0 Hopen0 Hsave0 Hremove0].
  to_run_result.
  call_cases E C d t;
    pose proof (resolves_to_resolution _ _ _ _ _ Hr Hres) as Heq;
    try discriminate Heq;
    injection Heq as ->;
    try congruence;
    assert (tmp = tmp0) by congruence; subst tmp;
    try congruence;
    rewrite Hrm; congruence.
Qed.

(** C1.  [get_screenshot] catches every exception of the device tools, the
    file system and the image library, but not one raised by its own
    handler: the call raises exactly when printing the diagnostic of the
    caught exception raises, and then with that exception.  When the
    diagnostic is printed the call returns a [Screenshot], and one returned
    after a caught exception is the black 1080x2400 placeholder with
    [is_sensitive = False]. *)
Theorem get_screenshot_raises_only_from_print (E : Env) (C : Codec)
  (device_id : option string) (timeout : Z) :
  (forall e,
     fst (call E C device_id timeout) = inl e
     <-> exists exc,
           In (ev_print exc) (events (snd (call E C device_id timeout)))
           /\ print E (diagnostic exc) = inl e)
  /\ (diagnostic_printed E C device_id timeout ->
      exists r, fst (call E C device_id timeout) = inr r)
  /\ (forall r exc,
        fst (call E C device_id timeout) = inr r ->
        In (ev_print exc) (events (snd (call E C device_id timeout))) ->
        base64_data r = placeholder_data C
        /\ width r = 1080 /\ height r = 2400 /\ is_sensitive r = false).
Proof.
  split; [intros e; apply call_raises_iff |].
  split; [apply call_returns_iff |].
  intros r exc Hcall Hin.
  call_cases E C device_id timeout; returned Hcall;
    try (repeat split);
    exfalso; spell_out_trace Hres; discriminate Hin.
Qed.

(** The call at work on an ASCII standard output: the capture exits with
    status one, [_run] raises its [RuntimeError], and printing the
    diagnostic raises [UnicodeEncodeError], which leaves [get_screenshot]. *)
Lemma get_screenshot_raises_on_ascii_stdout :
  fst (call (on_ascii_stdout world_capture_exit_1) sample_codec
         (Some "emulator-5554") 10)
  = inl (Raised "UnicodeEncodeError" "'ascii' codec can't encode characters").
Proof.
  apply (proj1 (get_screenshot_raises_only_from_print
                  (on_ascii_stdout world_capture_exit_1) sample_codec
                  (Some "emulator-5554") 10)).
  exists (RuntimeError_command (capture_cmd "emulator-5554") "").
  split; [vm_compute; auto 10 | reflexivity].
Defined.

(** C2, as the code has it.  When the capture command is run, exits with
    status zero and its stdout contains "Status: -1" or "Failed", the call
    returns the placeholder for the resolved device with
    [is_sensitive = True] and dimensions 1080x2400, and neither pulls nor
    opens nor saves a file. *)
Theorem refusal_marker_yields_sensitive_placeholder (E : Env) (C : Codec)
  (device_id : option string) (timeout : Z) (rid out : string) :
  In (ev_run (capture_cmd rid) timeout)
     (events (snd (call E C device_id timeout))) ->
  succeeds E (capture_cmd rid) timeout out ->
  refusal_marker out = true ->
  exists r,
    fst (call E C device_id timeout) = inr r
    /\ r = _black_fallback C rid true
    /\ is_sensitive r = true /\ width r = 1080 /\ height r = 2400
    /\ (forall rid' local tp,
          ~ In (ev_run (pull_cmd rid' local) tp)
               (events (snd (call E C device_id timeout))))
    /\ (forall p, ~ In (ev_open p) (events (snd (call E C device_id timeout))))
    /\ ~ In ev_save (events (snd (call E C device_id timeout))).
Proof.
  intros Hin Hrun Hmarker.
  call_cases E C device_id timeout; to_run_result;
    try (exfalso; spell_out_trace Hres; event_eq Hin; congruence).
  spell_out_trace Hres; event_eq Hin;
    (eexists; split; [reflexivity |]);
    repeat split;
    try (intros rid' local tp Hin'); try (intros p Hin'); try (intros Hin');
    cbn [app] in Hin';
    repeat (destruct Hin' as [Hin' | Hin']; try event_eq Hin'; try discriminate Hin');
    try destruct Hin'.
Qed.

Lemma refusal_marker_yields_sensitive_placeholder_witness :
  exists r,
    fst (call world_refused sample_codec None 10) = inr r
    /\ r = _black_fallback sample_codec "emulator-5554" true
    /\ is_sensitive r = true /\ width r = 1080 /\ height r = 2400
    /\ (forall rid' local tp,
          ~ In (ev_run (pull_cmd rid' local) tp)
               (events (snd (call world_refused sample_codec None 10))))
    /\ (forall p,
          ~ In (ev_open p) (events (snd (call world_refused sample_codec None 10))))
    /\ ~ In ev_save (events (snd (call world_refused sample_codec None 10))).
Proof.
  apply (refusal_marker_yields_sensitive_placeholder
           world_refused sample_codec None 10 "emulator-5554" "Failed").
  - vm_compute. auto.
  - exists {| returncode := 0; stdout := "Failed"; stderr := "" |}.
    repeat split.
  - reflexivity.
Defined.

(** C2 as stated fails: a capture that prints "Failed" and exits with
    status one makes [_run] raise, and the call returns the placeholder with
    [is_sensitive = False]. *)
Lemma marker_with_nonzero_exit_is_not_sensitive :
  ~ marker_always_sensitive world_capture_exit_1 sample_codec None 10.
Proof.
  intros H.
  destruct (H "emulator-5554"
              {| returncode := 1; stdout := "Failed"; stderr := "" |})
    as (r & Hr & Hs & _).
  - vm_compute. auto.
  - reflexivity.
  - reflexivity.
  - vm_compute in Hr. injection Hr as <-. discriminate Hs.
Qed.

(** C3.  In every result of [get_screenshot], [is_sensitive = True] implies
    that the payload is the fixed placeholder (the base64 text of the PNG of
    a black 1080x2400 RGB image, which depends on nothing the device sent);
    and, for an image library that keeps its PNG contract, the payload of
    every result decodes to a PNG whose pixel dimensions are the [width] and
    [height] fields. *)
Theorem sensitive_is_placeholder_and_dimensions_match (E : Env) (C : Codec)
  (device_id : option string) (timeout : Z) (r : Screenshot) :
  fst (call E C device_id timeout) = inr r ->
  (is_sensitive r = true ->
   base64_data r = placeholder_data C /\ width r = 1080 /\ height r = 2400)
  /\ (png_contract E C ->
      exists png, b64decode (base64_data r) = Some png
                  /\ png_size C png = Some (width r, height r)).
Proof.
  intros Hcall.
  call_cases E C device_id timeout;
    returned Hcall;
    (split; [intros Hs; try discriminate Hs; repeat split |]);
    intros [Hnew Hfile];
    try (exists (new_save_PNG C "RGB" (1080, 2400) "black");
         split; [apply Base64Facts.b64decode_b64encode | exact Hnew]).
  exists png. split; [apply Base64Facts.b64decode_b64encode |].
  cbn [real_screenshot width height].
  rewrite (Hfile _ _ _ Hopen Hsave). now destruct (size img).
Qed.

Lemma sensitive_is_placeholder_and_dimensions_match_witness :
  fst (call world_refused sample_codec None 10)
  = inr (_black_fallback sample_codec "emulator-5554" true)
  /\ png_contract world_refused sample_codec
  /\ base64_data (_black_fallback sample_codec "emulator-5554" true)
     = placeholder_data sample_codec
  /\ exists png,
       b64decode (base64_data (_black_fallback sample_codec "emulator-5554" true))
       = Some png
       /\ png_size sample_codec png = Some (1080, 2400).
Proof.
  assert (Hcall : fst (call world_refused sample_codec None 10)
                  = inr (_black_fallback sample_codec "emulator-5554" true))
    by reflexivity.
  assert (Hcontract : png_contract world_refused sample_codec).
  { split; [reflexivity |].
    intros path img png Hopen Hsave.
    injection Hopen as <-. injection Hsave as <-. reflexivity. }
  destruct (sensitive_is_placeholder_and_dimensions_match
              world_refused sample_codec None 10 _ Hcall) as [Hs Hd].
  split; [exact Hcall |]. split; [exact Hcontract |].
  split; [exact (proj1 (Hs eq_refl)) | exact (Hd Hcontract)].
Defined.



(** C5, as the code has it.  The [device_id] of a returned result is the
    resolved id whenever device resolution completed (on success and after
    every later failure alike), and the literal "unknown" when it did not,
    which happens only when nothing non-empty was supplied.  It is a string,
    never [None]; it is empty only if nothing non-empty was supplied and the
    device listing has exactly one ready line, whose serial field is empty.
    The call returns whenever its diagnostic, if there is one, is printed. *)
Theorem device_id_is_resolved_or_unknown (E : Env) (C : Codec)
  (device_id0 : option string) (timeout : Z) :
  (diagnostic_printed E C device_id0 timeout ->
   exists r, fst (call E C device_id0 timeout) = inr r)
  /\ forall r,
       fst (call E C device_id0 timeout) = inr r ->
       (forall rid, resolves_to E device_id0 rid -> device_id r = rid)
       /\ ((forall rid, ~ resolves_to E device_id0 rid) ->
           device_id r = "unknown" /\ truthy device_id0 = false)
       /\ (device_id r = "" ->
           truthy device_id0 = false
           /\ exists text,
                succeeds E ["adb"; "devices"] 10 text
                /\ ready_devices (splitlines (strip text)) = [""]).
Proof.
  split; [apply call_returns_iff |].
  intros r Hcall.
  destruct (device_id_of_call E C device_id0 timeout r Hcall)
    as (Hresolved & Hunknown & Hempty).
  split; [exact Hresolved |]. split; [exact Hunknown |].
  intros Hr. destruct (Hempty Hr) as [Hd Hres].
  split; [exact Hd |].
  destruct (_build_adb_prefix_cases E device_id0 frame0)
    as (o & evs & Hcase & _).
  pose proof (resolves_to_resolution _ _ _ _ _ Hres Hcase) as ->.
  inversion Hcase as [id Hsome Hid | text serial _ Hrun Hdev | |]; subst.
  - contradiction.
  - exists text. auto.
Qed.

Lemma device_id_is_resolved_or_unknown_witness :
  exists r,
    fst (call world_rm_exit_1 sample_codec None 10) = inr r
    /\ device_id r = "emulator-5554".
Proof.
  destruct (device_id_is_resolved_or_unknown world_rm_exit_1 sample_codec None 10)
    as (Hreturns & Hid).
  destruct Hreturns as [r Hr]; [intros exc _; reflexivity |].
  exists r. split; [exact Hr |].
  apply (Hid r Hr). eexists. reflexivity.
Defined.

(** C5 as stated fails: with nothing supplied and a device listing whose
    only ready line has an empty serial field, the result carries the empty
    string as its [device_id]. *)
Lemma device_id_can_be_empty :
  ~ device_id_never_empty world_empty_serial sample_codec None 10.
Proof.
  intros H.
  apply (H (_black_fallback sample_codec "" false)); reflexivity.
Qed.

(** C6, as the code has it.  A supplied, non-empty device id is the target
    of the call as it stands: the device list is not consulted, every
    command issued is [adb -s <id> ...], and a returned result carries that
    id.  With no device id (or an empty one) and a device listing with
    exactly one ready device, a returned result carries that device's
    serial.  In both cases the call returns whenever its diagnostic, if
    there is one, is printed. *)
Theorem device_resolution_rule (E : Env) (C : Codec)
  (device_id0 : option string) (timeout : Z) :
  (forall id, device_id0 = Some id -> id <> "" ->
     (forall cmd tm,
        In (ev_run cmd tm) (events (snd (call E C device_id0 timeout))) ->
        exists args, cmd = (["adb"; "-s"; id] ++ args)%list)
     /\ (forall r, fst (call E C device_id0 timeout) = inr r -> device_id r = id)
     /\ (diagnostic_printed E C device_id0 timeout ->
         exists r,
           fst (call E C device_id0 timeout) = inr r /\ device_id r = id))
  /\ (forall text serial,
        truthy device_id0 = false ->
        succeeds E ["adb"; "devices"] 10 text ->
        ready_devices (splitlines (strip text)) = [serial] ->
        (forall r,
           fst (call E C device_id0 timeout) = inr r -> device_id r = serial)
        /\ (diagnostic_printed E C device_id0 timeout ->
            exists r,
              fst (call E C device_id0 timeout) = inr r
              /\ device_id r = serial)).
Proof.
  assert (Hid : forall rid,
            resolves_to E device_id0 rid ->
            (forall r,
               fst (call E C device_id0 timeout) = inr r -> device_id r = rid)
            /\ (diagnostic_printed E C device_id0 timeout ->
                exists r,
                  fst (call E C device_id0 timeout) = inr r
                  /\ device_id r = rid)).
  { intros rid Hr.
    assert (Hall : forall r,
              fst (call E C device_id0 timeout) = inr r -> device_id r = rid)
      by (intros r Hcall;
          now apply (device_id_of_call E C device_id0 timeout r Hcall)).
    split; [exact Hall |].
    intros Hprint. apply call_returns_iff in Hprint as [r Hcall].
    exists r. split; [exact Hcall | now apply Hall]. }
  split.
  - intros id Hd Hne.
    pose proof (res_supplied E device_id0 id Hd Hne) as Hsup.
    pose proof (resolution_resolves _ _ _ _ Hsup) as Hr.
    split; [| now apply Hid].
    intros cmd tm Hin.
    call_cases E C device_id0 timeout;
      destruct (resolution_deterministic _ _ _ _ _ _ Hres Hsup) as [Ho Hevs];
      try discriminate Ho; injection Ho as ->; subst evs;
      cbn [app] in Hin;
      repeat (destruct Hin as [Hin | Hin];
              [first [discriminate Hin
                     | injection Hin as <- <-; eexists; reflexivity] |]);
      destruct Hin.
  - intros text serial Hd Hrun Hdev.
    pose proof (res_single E device_id0 text serial Hd Hrun Hdev) as Hone.
    apply Hid. now apply (resolution_resolves _ _ _ _ Hone).
Qed.

Lemma device_resolution_rule_witness :
  (exists r,
     fst (call world_two_devices sample_codec (Some "emulator-5556") 10) = inr r
     /\ device_id r = "emulator-5556")
  /\ (exists r,
        fst (call world_ok sample_codec None 10) = inr r
        /\ device_id r = "emulator-5554").
Proof.
  split.
  - destruct (proj1 (device_resolution_rule world_two_devices sample_codec
                       (Some "emulator-5556") 10)
                    "emulator-5556" eq_refl)
      as (_ & _ & Hr).
    + discriminate.
    + apply Hr. intros exc _. reflexivity.
  - apply (proj2 (device_resolution_rule world_ok sample_codec None 10)
                 (device_listing ["emulator-5554"]) "emulator-5554").
    + reflexivity.
    + exists {| returncode := 0; stdout := device_listing ["emulator-5554"];
                stderr := "" |}.
      repeat split.
    + reflexivity.
    + intros exc _. reflexivity.
Defined.

(** C6 as stated fails: an empty string supplied as device id is not used;
    the device list is consulted and the result carries the listed serial. *)
Lemma empty_supplied_id_is_not_used :
  ~ supplied_id_used_verbatim world_ok sample_codec (Some "") 10.
Proof.
  intros H. destruct (H "" eq_refl) as (r & Hr & Hid).
  vm_compute in Hr. injection Hr as <-. discriminate Hid.
Qed.

(** C7, as the code has it.  The remote clean-up is inside the [try] block:
    when capture, transfer and decode have succeeded and the remote [rm]
    exits non-zero, [_run] raises and the handler takes over.  The decoded
    picture is not returned: the only result the call returns is the black
    1080x2400 placeholder for the resolved device with
    [is_sensitive = False], and it returns it as soon as the diagnostic of
    the [RuntimeError] is printed. *)
Theorem remote_cleanup_failure_yields_fallback (E : Env) (C : Codec)
  (device_id0 : option string) (timeout : Z) (rid : string) (img : ImageFile)
  (png : list byte) (cp : CompletedProcess) :
  decoded_run E device_id0 timeout rid img png ->
  subprocess_run E (rm_cmd rid) 5 = inr cp ->
  returncode cp <> 0 ->
  (forall r,
     fst (call E C device_id0 timeout) = inr r ->
     r = _black_fallback C rid false
     /\ base64_data r = placeholder_data C
     /\ width r = 1080 /\ height r = 2400
     /\ device_id r = rid /\ is_sensitive r = false)
  /\ (print E (diagnostic (RuntimeError_command (rm_cmd rid) (stderr cp)))
      = inr tt ->
      fst (call E C device_id0 timeout) = inr (_black_fallback C rid false)).
Proof.
  intros Hrun Hrm Hrc.
  rewrite (decoded_run_call E C _ _ _ _ _ Hrun).
  rewrite (run_result_nonzero E _ _ _ Hrm Hrc). unfold handled.
  split.
  - intros r Hcall.
    destruct (print E (diagnostic (RuntimeError_command (rm_cmd rid) (stderr cp))))
      as [e | []]; [discriminate Hcall |].
    injection Hcall as <-. repeat split.
  - intros ->. reflexivity.
Qed.

Lemma world_rm_exit_1_decoded :
  decoded_run world_rm_exit_1 None 10 "emulator-5554" sample_image
    (dims_bytes (720, 1280)).
Proof.
  apply (decoded_run_intro _ _ _ _ _ _ "/tmp" "" "1 file pulled").
  - eexists. reflexivity.
  - reflexivity.
  - eexists. repeat split.
  - reflexivity.
  - eexists. repeat split.
  - reflexivity.
  - reflexivity.
  - reflexivity.
Defined.

Lemma remote_cleanup_failure_yields_fallback_witness :
  fst (call world_rm_exit_1 sample_codec None 10)
  = inr (_black_fallback sample_codec "emulator-5554" false).
Proof.
  apply (remote_cleanup_failure_yields_fallback world_rm_exit_1 sample_codec
           None 10 "emulator-5554" sample_image (dims_bytes (720, 1280))
           {| returncode := 1; stdout := ""; stderr := "" |}).
  - exact world_rm_exit_1_decoded.
  - reflexivity.
  - discriminate.
  - reflexivity.
Defined.

(** C7 as stated fails: every step up to the decode succeeds, the remote
    [rm] exits with status one, and the call returns the 1080x2400
    placeholder, not the 720x1280 picture. *)
Lemma remote_cleanup_failure_loses_picture :
  ~ remote_cleanup_is_best_effort world_rm_exit_1 sample_codec None 10.
Proof.
  intros H.
  specialize (H "emulator-5554" sample_image (dims_bytes (720, 1280))
                {| returncode := 1; stdout := ""; stderr := "" |}
                world_rm_exit_1_decoded eq_refl).
  assert (Hrc : 1 <> 0) by discriminate.
  specialize (H Hrc). vm_compute in H. discriminate H.
Qed.

(** C8, as the code has it.  The capture runs with the timeout the caller
    supplied and the pull with the constant 30: the pull is given more time
    than the capture exactly when the supplied timeout is below 30 (as the
    default, 10, is). *)
Theorem pull_timeout_is_30 (E : Env) (C : Codec) (device_id : option string)
  (timeout : Z) (rid rid' local : string) (tc tp : Z) :
  In (ev_run (capture_cmd rid) tc) (events (snd (call E C device_id timeout))) ->
  In (ev_run (pull_cmd rid' local) tp)
     (events (snd (call E C device_id timeout))) ->
  tc = timeout /\ tp = 30 /\ (tc < tp <-> timeout < 30).
Proof.
  intros Hc Hp.
  call_cases E C device_id timeout;
    spell_out_trace Hres; event_eqs;
    repeat split; intros; assumption.
Qed.

Lemma pull_timeout_is_30_witness :
  In (ev_run (capture_cmd "emulator-5554") 10)
     (events (snd (call world_ok sample_codec None 10)))
  /\ In (ev_run (pull_cmd "emulator-5554" sample_local) 30)
        (events (snd (call world_ok sample_codec None 10)))
  /\ 10 < 30.
Proof.
  assert (Hc : In (ev_run (capture_cmd "emulator-5554") 10)
                  (events (snd (call world_ok sample_codec None 10))))
    by (vm_compute; auto 10).
  assert (Hp : In (ev_run (pull_cmd "emulator-5554" sample_local) 30)
                  (events (snd (call world_ok sample_codec None 10))))
    by (vm_compute; auto 10).
  split; [exact Hc |]. split; [exact Hp |].
  apply (pull_timeout_is_30 world_ok sample_codec None 10
           "emulator-5554" "emulator-5554" sample_local 10 30 Hc Hp).
  reflexivity.
Defined.

(** C8 as stated fails: called with a timeout of 30, the capture and the
    pull both run with 30. *)
Lemma pull_timeout_not_longer_at_30 :
  ~ pull_timeout_longer world_ok sample_codec (Some "emulator-5554") 30.
Proof.
  intros H.
  specialize (H "emulator-5554" "emulator-5554" sample_local 30 30).
  assert (Hlt : 30 < 30); [| lia].
  apply H; vm_compute; auto.
Qed.

(** C9.  On a run where every step succeeds, the [width] and [height] of
    the result are the size of the picture that was opened, and the payload
    base64-decodes to the PNG stream the picture was saved as, which (the
    image library having written a PNG of the picture's size) is a PNG of
    those same dimensions. *)
Theorem successful_run_round_trip (E : Env) (C : Codec)
  (device_id0 : option string) (timeout : Z) (rid out : string)
  (img : ImageFile) (png : list byte) :
  decoded_run E device_id0 timeout rid img png ->
  succeeds E (rm_cmd rid) 5 out ->
  png_size C png = Some (size img) ->
  exists r,
    fst (call E C device_id0 timeout) = inr r
    /\ (width r, height r) = size img
    /\ device_id r = rid /\ is_sensitive r = false
    /\ b64decode (base64_data r) = Some png
    /\ png_size C png = Some (width r, height r).
Proof.
  intros Hrun Hrm Hpng.
  apply run_result_succeeds in Hrm.
  exists (real_screenshot rid img png).
  split.
  - rewrite (decoded_run_call E C _ _ _ _ _ Hrun). now rewrite Hrm.
  - cbn [real_screenshot width height device_id is_sensitive base64_data].
    rewrite Hpng, <- surjective_pairing.
    repeat split. apply Base64Facts.b64decode_b64encode.
Qed.

Lemma world_ok_decoded :
  decoded_run world_ok None 10 "emulator-5554" sample_image
    (dims_bytes (720, 1280)).
Proof.
  apply (decoded_run_intro _ _ _ _ _ _ "/tmp" "" "1 file pulled").
  - eexists. reflexivity.
  - reflexivity.
  - eexists. repeat split.
  - reflexivity.
  - eexists. repeat split.
  - reflexivity.
  - reflexivity.
  - reflexivity.
Defined.

Lemma successful_run_round_trip_witness :
  exists r,
    fst (call world_ok sample_codec None 10) = inr r
    /\ (width r, height r) = (720, 1280)
    /\ device_id r = "emulator-5554" /\ is_sensitive r = false
    /\ b64decode (base64_data r) = Some (dims_bytes (720, 1280))
    /\ png_size sample_codec (dims_bytes (720, 1280))
       = Some (width r, height r).
Proof.
  apply (successful_run_round_trip world_ok sample_codec None 10
           "emulator-5554" "" sample_image (dims_bytes (720, 1280))).
  - exact world_ok_decoded.
  - exists {| returncode := 0; stdout := ""; stderr := "" |}. repeat split.
  - reflexivity.
Defined.

(** C10.  The refusal markers are looked for only in the stdout of a
    capture that exited with status zero: a returned result is sensitive
    exactly when the capture command was run, exited with status zero and
    printed a refusal marker on stdout (stderr plays no part); in particular
    after a capture that exits non-zero a returned result has
    [is_sensitive = False] whatever was printed.  The call returns whenever
    its diagnostic, if there is one, is printed. *)
Theorem sensitive_only_after_zero_exit (E : Env) (C : Codec)
  (device_id : option string) (timeout : Z) :
  (diagnostic_printed E C device_id timeout ->
   exists r, fst (call E C device_id timeout) = inr r)
  /\ forall r,
       fst (call E C device_id timeout) = inr r ->
       (is_sensitive r = true <->
        exists rid out,
          In (ev_run (capture_cmd rid) timeout)
             (events (snd (call E C device_id timeout)))
          /\ succeeds E (capture_cmd rid) timeout out
          /\ refusal_marker out = true)
       /\ (forall rid cp,
             In (ev_run (capture_cmd rid) timeout)
                (events (snd (call E C device_id timeout))) ->
             subprocess_run E (capture_cmd rid) timeout = inr cp ->
             returncode cp <> 0 ->
             is_sensitive r = false).
Proof.
  split; [apply call_returns_iff |].
  assert (Hnz : forall cmd t cp out,
            subprocess_run E cmd t = inr cp -> returncode cp <> 0 ->
            run_result E cmd t = inr out -> False).
  { intros cmd t cp out H1 H2 H3.
    rewrite (run_result_nonzero E _ _ _ H1 H2) in H3. discriminate. }
  intros r Hcall.
  call_cases E C device_id timeout; returned Hcall;
    cbn [_black_fallback real_screenshot is_sensitive];
    (split; [split |]);
    try discriminate;
    try (intros (rid & out & Hin & Hrun & Hmarker); exfalso;
         to_run_result; spell_out_trace Hres; event_eqs; congruence);
    try reflexivity;
    try (intros _; exists rid1, out1; apply run_result_succeeds in Hcap;
         split; [apply in_or_app; right; simpl; auto | auto]);
    intros rid cp Hin Hrun Hrc; exfalso;
    spell_out_trace Hres; event_eqs; eapply Hnz; eauto.
Qed.

Lemma sensitive_only_after_zero_exit_witness :
  exists r,
    fst (call world_capture_exit_1 sample_codec None 10) = inr r
    /\ is_sensitive r = false.
Proof.
  destruct (sensitive_only_after_zero_exit world_capture_exit_1 sample_codec
              None 10) as (Hreturns & Hflag).
  destruct Hreturns as [r Hr]; [intros exc _; reflexivity |].
  exists r. split; [exact Hr |].
  apply (proj2 (Hflag r Hr) "emulator-5554"
               {| returncode := 1; stdout := "Failed"; stderr := "" |}).
  - vm_compute. auto 10.
  - reflexivity.
  - discriminate.
Defined.

(** ** Further properties of a call *)

Ltac absurd_event H :=
  cbv [capture_cmd pull_cmd rm_cmd devices_event app] in H; discriminate H.

Ltac trace_members :=
  repeat match goal with
         | Hin : In _ (_ ++ _) |- _ => apply in_app_or in Hin
         | Hin : In _ (_ :: _) |- _ => destruct Hin as [Hin | Hin]
         | Hin : In _ [] |- _ => destruct Hin
         | Hin : _ \/ _ |- _ => destruct Hin as [Hin | Hin]
         end.

(** X3.  Every [adb] command of a call other than the device listing is
    addressed, with [-s], to one device, and a returned result carries the
    id of that device; the call returns whenever its diagnostic, if there is
    one, is printed. *)
Theorem commands_target_result_device (E : Env) (C : Codec)
  (device_id0 : option string) (timeout : Z) :
  exists id,
    (forall cmd tm,
       In (ev_run cmd tm) (events (snd (call E C device_id0 timeout))) ->
       cmd = ["adb"; "devices"]
       \/ exists args, cmd = (["adb"; "-s"; id] ++ args)%list)
    /\ (forall r,
          fst (call E C device_id0 timeout) = inr r -> device_id r = id)
    /\ (diagnostic_printed E C device_id0 timeout ->
        exists r, fst (call E C device_id0 timeout) = inr r).
Proof.
  pose proof (proj2 (call_returns_iff E C device_id0 timeout)) as Hreturns.
  call_cases E C device_id0 timeout;
    [exists "unknown" | exists rid1 ..];
    (split;
     [ intros cmd tm Hin; spell_out_trace Hres; event_eqs;
       first [ left; reflexivity | right; eexists; reflexivity ]
     | split; [intros r Hcall; returned Hcall; reflexivity | exact Hreturns] ]).
Qed.

Lemma commands_target_result_device_witness :
  exists id,
    (forall cmd tm,
       In (ev_run cmd tm)
          (events (snd (call world_rm_exit_1 sample_codec None 10))) ->
       cmd = ["adb"; "devices"]
       \/ exists args, cmd = (["adb"; "-s"; id] ++ args)%list)
    /\ (forall r,
          fst (call world_rm_exit_1 sample_codec None 10) = inr r ->
          device_id r = id)
    /\ (diagnostic_printed world_rm_exit_1 sample_codec None 10 ->
        exists r, fst (call world_rm_exit_1 sample_codec None 10) = inr r).
Proof.
  exact (commands_target_result_device world_rm_exit_1 sample_codec None 10).
Defined.

(** X4.  A call is a single attempt: no external call is made twice, at
    most four [adb] commands are run, and at most one diagnostic is printed,
    as the last thing the call does. *)
Theorem single_attempt (E : Env) (C : Codec) (device_id : option string)
  (timeout : Z) :
  NoDup (events (snd (call E C device_id timeout)))
  /\ (List.length (filter is_run (events (snd (call E C device_id timeout))))
      <= 4)%nat
  /\ (List.length (filter is_print (events (snd (call E C device_id timeout))))
      <= 1)%nat
  /\ forall exc,
       In (ev_print exc) (events (snd (call E C device_id timeout))) ->
       exists before,
         events (snd (call E C device_id timeout))
         = (before ++ [ev_print exc])%list.
Proof.
  call_cases E C device_id timeout;
    destruct (resolution_events _ _ _ _ Hres) as [-> | ->];
    unfold devices_event; cbn [app filter is_run is_print List.length];
    (split; [| split; [lia | split; [lia |]]]).
  all: try (repeat constructor; intros Hin; trace_members;
            first [discriminate Hin | absurd_event Hin]).
  all: intros exc Hin; trace_members;
    first [discriminate Hin | absurd_event Hin | idtac];
    injection Hin as <-;
    match goal with
    | |- exists before, ?l = _ =>
        exists (removelast l); reflexivity
    end.
Qed.

Lemma single_attempt_witness :
  NoDup (events (snd (call world_rm_exit_1 sample_codec None 10)))
  /\ (List.length
        (filter is_run (events (snd (call world_rm_exit_1 sample_codec None 10))))
      <= 4)%nat
  /\ (List.length
        (filter is_print (events (snd (call world_rm_exit_1 sample_codec None 10))))
      <= 1)%nat
  /\ forall exc,
       In (ev_print exc) (events (snd (call world_rm_exit_1 sample_codec None 10))) ->
       exists before,
         events (snd (call world_rm_exit_1 sample_codec None 10))
         = (before ++ [ev_print exc])%list.
Proof. exact (single_attempt world_rm_exit_1 sample_codec None 10). Defined.

Lemma decoded_run_of_path (E : Env) (d : option string) (t : Z)
  (rid tmp out out2 : string) (evs : list event) (img : ImageFile)
  (png : list byte) :
  resolution E d (inr rid) evs ->
  gettempdir E = inr tmp ->
  run_result E (capture_cmd rid) t = inr out ->
  refusal_marker out = false ->
  run_result E (pull_cmd rid (local_path E tmp)) 30 = inr out2 ->
  Image_open E (local_path E tmp) = inr img ->
  save_PNG img = inr png ->
  os_remove E (local_path E tmp) = inr tt ->
  decoded_run E d t rid img png.
Proof.
  intros Hres Htmp Hcap Hmark Hpull Hopen Hsave Hremove.
  apply run_result_succeeds in Hcap, Hpull.
  apply (decoded_run_intro E d t rid img png tmp out out2); auto.
  now apply (resolution_resolves E d rid evs).
Qed.

(** X5.  Clean-up happens only at the end of a successful decode, and not
    at all otherwise: the local file is removed only after it was opened and
    saved as PNG; the remote [rm] is issued only after capture, pull, decode
    and the local removal all succeeded; and when [Image.open] or the PNG
    save raises, neither the pulled local file nor the remote file is
    removed. *)
Theorem cleanup_only_after_decode (E : Env) (C : Codec)
  (device_id : option string) (timeout : Z) :
  (forall p,
     In (ev_remove p) (events (snd (call E C device_id timeout))) ->
     exists tmp img png,
       gettempdir E = inr tmp /\ p = local_path E tmp
       /\ Image_open E p = inr img /\ save_PNG img = inr png)
  /\ (forall rid tm,
        In (ev_run (rm_cmd rid) tm) (events (snd (call E C device_id timeout))) ->
        exists img png, decoded_run E device_id timeout rid img png)
  /\ (forall p,
        In (ev_open p) (events (snd (call E C device_id timeout))) ->
        (exists e, Image_open E p = inl e)
        \/ (exists img e, Image_open E p = inr img /\ save_PNG img = inl e) ->
        (forall p', ~ In (ev_remove p') (events (snd (call E C device_id timeout))))
        /\ (forall rid tm,
              ~ In (ev_run (rm_cmd rid) tm)
                   (events (snd (call E C device_id timeout))))).
Proof.
  call_cases E C device_id timeout; (split; [| split]).
  (* the local removal *)
  all: try (intros p Hin; spell_out_trace Hres;
            first [ discriminate Hin | absurd_event Hin
                  | injection Hin as <-; exists tmp, img, png; auto ]).
  (* the remote removal *)
  all: try (intros rid tm Hin; spell_out_trace Hres;
            first [ discriminate Hin | absurd_event Hin
                  | event_eq Hin; exists img, png;
                    eapply decoded_run_of_path; eauto ]).
  (* a decode that raised *)
  all: intros p Hin Hfail;
    first
      [ solve [ exfalso; spell_out_trace Hres;
                first [ discriminate Hin | absurd_event Hin
                      | injection Hin as <-;
                        repeat match goal with
                               | H : exists _, _ |- _ => destruct H
                               | H : _ /\ _ |- _ => destruct H
                               end;
                        congruence ] ]
      | split; [intros p' Hin' | intros rid tm Hin'];
        clear Hin; spell_out_trace Hres;
        first [ discriminate Hin' | absurd_event Hin' ] ].
Qed.

Lemma cleanup_only_after_decode_witness :
  exists img png,
    decoded_run world_rm_exit_1 None 10 "emulator-5554" img png.
Proof.
  apply (proj1 (proj2 (cleanup_only_after_decode world_rm_exit_1 sample_codec
                         None 10)) "emulator-5554" 5).
  vm_compute. auto 12.
Defined.

Lemma call_total_timeout (E : Env) (C : Codec) (d : option string) (t : Z) :
  0 <= t -> total_timeout (events (snd (call E C d t))) <= t + 45.
Proof.
  intros Ht.
  call_cases E C d t;
    destruct (resolution_events _ _ _ _ Hres) as [-> | ->];
    cbv [total_timeout devices_event app map timeout_of fold_right]; lia.
Qed.

(** X6.  Only the capture runs under the caller's timeout: the device
    listing always runs with 10 and the remote [rm] with 5, and for a
    non-negative timeout the time limits of all commands of a call add up to
    at most the timeout plus 45. *)
Theorem timeout_budget (E : Env) (C : Codec) (device_id : option string)
  (timeout : Z) :
  0 <= timeout ->
  total_timeout (events (snd (call E C device_id timeout))) <= timeout + 45
  /\ (forall tm,
        In (ev_run ["adb"; "devices"] tm)
           (events (snd (call E C device_id timeout))) ->
        tm = 10)
  /\ (forall rid tm,
        In (ev_run (rm_cmd rid) tm) (events (snd (call E C device_id timeout))) ->
        tm = 5).
Proof.
  intros Ht. split; [now apply call_total_timeout |].
  call_cases E C device_id timeout; split;
    first [ intros tm Hin; spell_out_trace Hres; event_eqs; reflexivity
          | intros rid tm Hin; spell_out_trace Hres; event_eqs; reflexivity ].
Qed.

Lemma timeout_budget_witness :
  total_timeout (events (snd (call world_ok sample_codec None 10))) <= 10 + 45.
Proof.
  apply (timeout_budget world_ok sample_codec None 10). discriminate.
Defined.

(** X7.  A call returns without printing a diagnostic and without the
    sensitive flag exactly when every step succeeded, the remote clean-up
    included; what it returns then is the decoded picture, and on such a run
    the call does return.  On any run it returns whenever its diagnostic, if
    there is one, is printed. *)
Theorem silent_result_is_the_picture (E : Env) (C : Codec)
  (device_id0 : option string) (timeout : Z) :
  (forall r,
     fst (call E C device_id0 timeout) = inr r ->
     ((forall exc,
         ~ In (ev_print exc) (events (snd (call E C device_id0 timeout))))
      /\ is_sensitive r = false
      <-> exists rid out img png,
            decoded_run E device_id0 timeout rid img png
            /\ succeeds E (rm_cmd rid) 5 out
            /\ r = real_screenshot rid img png))
  /\ (forall rid out img png,
        decoded_run E device_id0 timeout rid img png ->
        succeeds E (rm_cmd rid) 5 out ->
        fst (call E C device_id0 timeout) = inr (real_screenshot rid img png))
  /\ (diagnostic_printed E C device_id0 timeout ->
      exists r, fst (call E C device_id0 timeout) = inr r).
Proof.
  split; [| split; [| apply call_returns_iff]].
  - intros r Hcall.
    call_cases E C device_id0 timeout; returned Hcall; split.
    (* a printed diagnostic, or the sensitive flag *)
    all: try (intros [Hsilent Hflag]; exfalso;
              first [ discriminate Hflag
                    | eapply Hsilent; apply in_or_app; right;
                      try (apply in_or_app; right); left; reflexivity ]).
    (* no complete run on a failing path *)
    all: try (intros (rid & out & img0 & png0 & Hrun & Hrm0 & Hr); exfalso;
              destruct Hrun
                as [tmp0 cap0 pull0 Hr0 Htmp0 Hcap0 Hmark0 Hpull0 Hopen0 Hsave0
                      Hremove0];
              to_run_result;
              pose proof (resolves_to_resolution _ _ _ _ _ Hr0 Hres) as Heq;
              first [ discriminate Heq
                    | injection Heq as ->; first [ congruence
                    | assert (tmp = tmp0) by congruence; subst tmp;
                      congruence ] ]).
    (* the successful path *)
    + intros _. exists rid1, out3, img, png.
      apply run_result_succeeds in Hrm.
      split; [eapply decoded_run_of_path; eauto | auto].
    + intros _. split; [| reflexivity].
      intros exc Hin. spell_out_trace Hres; discriminate Hin.
  - intros rid out img png Hrun Hrm.
    apply run_result_succeeds in Hrm.
    rewrite (decoded_run_call E C _ _ _ _ _ Hrun). now rewrite Hrm.
Qed.

Lemma silent_result_is_the_picture_witness :
  fst (call world_ok sample_codec None 10)
  = inr (real_screenshot "emulator-5554" sample_image (dims_bytes (720, 1280))).
Proof.
  apply (proj1 (proj2 (silent_result_is_the_picture world_ok sample_codec
                         None 10))
               "emulator-5554" "" sample_image (dims_bytes (720, 1280))).
  - apply (decoded_run_intro _ _ _ _ _ _ "/tmp" "" "1 file pulled");
      try reflexivity; eexists; repeat split.
  - eexists. repeat split.
Defined.

(** X8.  The local temporary file lies in the temporary directory and is
    named [scr_<uuid>.png]; for one temporary directory, two calls that draw
    different uuids get different local files. *)
Theorem local_path_per_uuid (E : Env) (tmp : string) :
  (exists sep,
     (sep = "" \/ sep = "/")
     /\ local_path E tmp = (tmp ++ sep ++ "scr_" ++ uuid4_hex E ++ ".png")%string)
  /\ forall E', local_path E tmp = local_path E' tmp ->
                uuid4_hex E = uuid4_hex E'.
Proof.
  assert (Hshape : forall E0,
            local_path E0 tmp
            = (tmp ++ (if (tmp =? "")%string || endswith tmp "/" then "" else "/")
               ++ "scr_" ++ uuid4_hex E0 ++ ".png")%string).
  { intros E0. unfold local_path, os_path_join. cbn [append prefix].
    destruct (ascii_dec "/" "s") as [Habs | _]; [discriminate Habs |].
    now destruct ((tmp =? "")%string || endswith tmp "/"). }
  split.
  - rewrite Hshape.
    destruct ((tmp =? "")%string || endswith tmp "/");
      [exists "" | exists "/"]; split; auto.
  - intros E' H. rewrite !Hshape in H.
    do 2 apply PyStrFacts.append_inj_l in H.
    cbn [append] in H. injection H as H.
    now apply PyStrFacts.append_inj_r in H.
Qed.

Lemma local_path_per_uuid_witness :
  local_path world_ok "/tmp" <> local_path world_ok_other_uuid "/tmp".
Proof.
  intros H.
  apply (proj2 (local_path_per_uuid world_ok "/tmp") world_ok_other_uuid) in H.
  discriminate H.
Defined.

Lemma length_b64encode (bs : list byte) :
  String.length (b64encode bs) = (4 * ((List.length bs + 2) / 3))%nat.
Proof.
  induction bs as [| a | a b | a b c rest IH] using Base64Facts.list_ind3;
    try reflexivity.
  cbn [b64encode String.length List.length]. rewrite IH.
  replace (S (S (S (List.length rest))) + 2)%nat
    with (List.length rest + 2 + 1 * 3)%nat by lia.
  rewrite Nat.div_add by discriminate. lia.
Qed.

Lemma char_of_base64_char (n : N) : base64_char (char_of n) = true.
Proof.
  unfold base64_char, char_of.
  destruct (nth_in_or_default (N.to_nat n) alphabet pad) as [Hin | ->].
  - apply orb_true_iff. left. apply existsb_exists.
    eexists. split; [exact Hin | apply Ascii.eqb_refl].
  - reflexivity.
Qed.

Lemma b64encode_chars (bs : list byte) :
  all_chars base64_char (b64encode bs) = true.
Proof.
  induction bs as [| a | a b | a b c rest IH] using Base64Facts.list_ind3;
    cbn [b64encode all_chars]; rewrite ?char_of_base64_char, ?IH; reflexivity.
Qed.

(** X9.  The payload of a returned result is the base64 text of one of two
    PNG streams: the one the image library writes for the black 1080x2400
    placeholder, or the one [img.save] wrote for the picture opened from the
    local temporary file.  It holds only letters, digits, [+], [/] and [=],
    decodes to that stream, and is four characters long for every three
    bytes of it, rounded up. *)
Theorem payload_is_base64 (E : Env) (C : Codec) (device_id : option string)
  (timeout : Z) (r : Screenshot) :
  fst (call E C device_id timeout) = inr r ->
  exists png,
    (png = new_save_PNG C "RGB" (1080, 2400) "black"
     \/ exists tmp img,
          gettempdir E = inr tmp
          /\ Image_open E (local_path E tmp) = inr img
          /\ save_PNG img = inr png)
    /\ all_chars base64_char (base64_data r) = true
    /\ b64decode (base64_data r) = Some png
    /\ String.length (base64_data r) = (4 * ((List.length png + 2) / 3))%nat.
Proof.
  intros Hcall.
  call_cases E C device_id timeout; returned Hcall;
    cbn [_black_fallback real_screenshot base64_data];
    match goal with |- context [b64encode ?p] => exists p end;
    (split; [first [ left; reflexivity | right; exists tmp, img; auto ] |]);
    (split; [apply b64encode_chars |
     split; [apply Base64Facts.b64decode_b64encode | apply length_b64encode]]).
Qed.

Lemma payload_is_base64_witness :
  exists png,
    (png = new_save_PNG sample_codec "RGB" (1080, 2400) "black"
     \/ exists tmp img,
          gettempdir world_ok = inr tmp
          /\ Image_open world_ok (local_path world_ok tmp) = inr img
          /\ save_PNG img = inr png)
    /\ all_chars base64_char "AtAFAA==" = true
    /\ b64decode "AtAFAA==" = Some png
    /\ String.length "AtAFAA==" = (4 * ((List.length png + 2) / 3))%nat.
Proof.
  apply (payload_is_base64 world_ok sample_codec None 10
           (real_screenshot "emulator-5554" sample_image (dims_bytes (720, 1280)))).
  reflexivity.
Defined.

Lemma sensitive_flag_of_capture (E : Env) (C : Codec) (d : option string)
  (t : Z) (rid out : string) (r : Screenshot) :
  In (ev_run (capture_cmd rid) t) (events (snd (call E C d t))) ->
  succeeds E (capture_cmd rid) t out ->
  fst (call E C d t) = inr r ->
  is_sensitive r = refusal_marker out.
Proof.
  intros Hin Hrun Hcall. to_run_result.
  call_cases E C d t; returned Hcall;
    cbn [_black_fallback real_screenshot is_sensitive];
    spell_out_trace Hres; event_eqs; congruence.
Qed.

Lemma refused_call_returns (E : Env) (C : Codec) (d : option string)
  (t : Z) (rid out : string) :
  In (ev_run (capture_cmd rid) t) (events (snd (call E C d t))) ->
  succeeds E (capture_cmd rid) t out ->
  refusal_marker out = true ->
  exists r, fst (call E C d t) = inr r.
Proof.
  intros Hin Hrun Hmarker. to_run_result.
  call_cases E C d t;
    try (eexists; reflexivity);
    exfalso; spell_out_trace Hres; event_eqs; congruence.
Qed.

(** X10.  The refusal test is a plain substring test on the stdout of a
    capture that exited with status zero: a returned result is sensitive
    exactly when that text has "Status: -1" or "Failed" somewhere inside it,
    whatever surrounds the marker.  When it has, the call returns; when it
    has not, the call returns if its diagnostic, if there is one, is
    printed. *)
Theorem sensitive_iff_marker_substring (E : Env) (C : Codec)
  (device_id : option string) (timeout : Z) (rid out : string) :
  In (ev_run (capture_cmd rid) timeout)
     (events (snd (call E C device_id timeout))) ->
  succeeds E (capture_cmd rid) timeout out ->
  (forall r,
     fst (call E C device_id timeout) = inr r ->
     (is_sensitive r = true
      <-> exists a b,
            out = (a ++ "Status: -1" ++ b)%string
            \/ out = (a ++ "Failed" ++ b)%string))
  /\ ((exists a b,
         out = (a ++ "Status: -1" ++ b)%string
         \/ out = (a ++ "Failed" ++ b)%string) ->
      exists r,
        fst (call E C device_id timeout) = inr r /\ is_sensitive r = true)
  /\ (diagnostic_printed E C device_id timeout ->
      exists r, fst (call E C device_id timeout) = inr r).
Proof.
  intros Hin Hrun.
  assert (Hmarker : refusal_marker out = true
                    <-> exists a b,
                          out = (a ++ "Status: -1" ++ b)%string
                          \/ out = (a ++ "Failed" ++ b)%string).
  { unfold refusal_marker.
    rewrite orb_true_iff, !PyStrFacts.contains_iff. split.
    - intros [(a & b & H) | (a & b & H)]; exists a, b; auto.
    - intros (a & b & [H | H]); [left | right]; now exists a, b. }
  split; [| split; [| apply call_returns_iff]].
  - intros r Hcall.
    now rewrite (sensitive_flag_of_capture E C _ _ _ _ r Hin Hrun Hcall).
  - intros Hsub. apply Hmarker in Hsub.
    destruct (refused_call_returns E C _ _ _ _ Hin Hrun Hsub) as [r Hcall].
    exists r. split; [exact Hcall |].
    now rewrite (sensitive_flag_of_capture E C _ _ _ _ r Hin Hrun Hcall).
Qed.

Lemma sensitive_iff_marker_substring_witness :
  exists r,
    fst (call world_refused sample_codec None 10) = inr r
    /\ is_sensitive r = true.
Proof.
  apply (sensitive_iff_marker_substring world_refused sample_codec None 10
           "emulator-5554" "Failed").
  - vm_compute. auto 10.
  - eexists. repeat split.
  - exists "", "". right. reflexivity.
Defined.

Lemma total_timeout_push (evs : list event) (e : event) :
  total_timeout (evs ++ [e]) = total_timeout evs + timeout_of e.
Proof.
  unfold total_timeout.
  induction evs as [| x evs IH]; cbn [app map fold_right]; lia.
Qed.

(** X11.  The command-line entry calls [get_screenshot()] with no device id
    and the timeout 10.  When that call raises, the entry raises the same
    exception and prints no record.  When it returns, the entry prints one
    record of the device id, the size, the flag and the payload length of
    the returned result, the length being a multiple of four, and ends as
    that [print] ends.  Either way the commands run have time limits adding
    up to at most 55. *)
Theorem main_prints_report (E : Env) (C : Codec) :
  (forall e,
     fst (call E C None 10) = inl e ->
     main E C frame0 = (inl e, snd (call E C None 10)))
  /\ (forall r,
        fst (call E C None 10) = inr r ->
        main E C frame0
        = (print E (record (report r)),
           push (ev_print_record (report r)) (snd (call E C None 10)))
        /\ exists n,
             report r
             = [("device_id", JStr (device_id r));
                ("size", JInts [width r; height r]);
                ("is_sensitive", JBool (is_sensitive r));
                ("base64_len", JInt (4 * n))])
  /\ total_timeout (events (snd (main E C frame0))) <= 55.
Proof.
  assert (Hbudget : total_timeout (events (snd (call E C None 10))) <= 10 + 45)
    by (apply call_total_timeout; discriminate).
  assert (Hmain : main E C frame0
                  = match call E C None 10 with
                    | (inr pic, f) =>
                        (print E (record (report pic)),
                         push (ev_print_record (report pic)) f)
                    | (inl e, f) => (inl e, f)
                    end).
  { unfold main. rewrite bind_unfold. unfold call.
    destruct (get_screenshot E C None 10 frame0) as [[e | pic] f];
      [reflexivity | apply external_eq]. }
  rewrite Hmain. clear Hmain.
  split; [| split].
  - intros e Hcall. destruct (call E C None 10) as [[e' | pic] f];
      cbn [fst snd] in *; congruence.
  - intros r Hcall. split.
    + destruct (call E C None 10) as [[e' | pic] f];
        cbn [fst snd] in *; congruence.
    + assert (Hlen : forall png,
                Z.of_nat (String.length (b64encode png))
                = 4 * Z.of_nat ((List.length png + 2) / 3))
        by (intros png; rewrite length_b64encode; lia).
      unfold report.
      call_cases (E) (C) (@None string) (10); returned Hcall;
        cbn [_black_fallback real_screenshot base64_data];
        rewrite Hlen; eexists; reflexivity.
  - destruct (call E C None 10) as [[e' | pic] f]; cbn [fst snd] in *;
      [lia |].
    unfold push. cbn [events]. rewrite total_timeout_push.
    cbn [timeout_of]. lia.
Qed.

Lemma main_prints_report_witness :
  main world_two_devices sample_codec frame0
  = (inr tt,
     push (ev_print_record
             (report (_black_fallback sample_codec "unknown" false)))
          (snd (call world_two_devices sample_codec None 10))).
Proof.
  apply (proj1 (proj1 (proj2 (main_prints_report world_two_devices
                                sample_codec))
                      (_black_fallback sample_codec "unknown" false)
                      eq_refl)).
Defined.
